(** * function_app.py: PDF page splitting behind an HTTP trigger

    A shallow embedding of [src/function_app.py] and the properties of its
    content-resolution and page-segmentation core.

    Python values are modelled as follows.
    - [str] is [string]; [len] returns a Python int, i.e. a [Z].
    - [bytes] is [list byte].
    - A pair [(pages, error)] returned by the core is an [outcome]: each
      component is [None] or a value.
    - An exception is a value of [exn]; code that can raise returns a
      [result].
    - The external collaborators (the PDF library, the HTTP client, the
      base64 codec, [json.dumps]) are variables of a section: every theorem
      holds for every behaviour they may have.  Calls that reach the outside
      world are recorded in a call log, so that "is routed to" and "without
      attempting to" are statements about that log.
    - Logging is not part of the contract and is left out, except where
      building the log message can itself raise (line 57). *)

From Stdlib Require Import ZArith List String Ascii Bool Lia.
From Stdlib Require Import DecimalString.
From Stdlib Require Init.Byte.
From Stdlib Require Import Floats.SpecFloat.
Import ListNotations.

Local Open Scope string_scope.
Local Open Scope Z_scope.

(* ------------------------------------------------------------------ *)
(** ** Python strings *)

Module Str.

Definition len (s : string) : Z := Z.of_nat (String.length s).

(** [s[:stop]] for a non-negative [stop]. *)
Definition slice_to (stop : Z) (s : string) : string :=
  substring 0 (Z.to_nat stop) s.

(** [s.startswith(p)]. *)
Definition startswith (s p : string) : bool := prefix p s.

(** [p in s] for two strings: [p] occurs somewhere in [s]. *)
Fixpoint contains (s p : string) {struct s} : bool :=
  prefix p s ||
  match s with
  | EmptyString => false
  | String _ s' => contains s' p
  end.

(** [str(n)] for an int. *)
Definition of_int (n : Z) : string := NilZero.string_of_int (Z.to_int n).

Definition newline : ascii := "010"%char.

(** The one-character string ["\n"]. *)
Definition nl : string := String newline EmptyString.

(** [s.split("\n")]: never empty, one more element than there are
    newlines. *)
Fixpoint split_lines (s : string) : list string :=
  match s with
  | EmptyString => [EmptyString]
  | String c s' =>
      if Ascii.eqb c newline then EmptyString :: split_lines s'
      else match split_lines s' with
           | l :: ls => String c l :: ls
           | [] => [String c EmptyString]
           end
  end.

Fixpoint repeat_nat (s : string) (n : nat) : string :=
  match n with
  | O => EmptyString
  | S n' => s ++ repeat_nat s n'
  end.

(** [s * n] for an int [n]: empty when [n] is not positive. *)
Definition repeat (s : string) (n : Z) : string := repeat_nat s (Z.to_nat n).

(** [bool(s)]. *)
Definition truthy (s : string) : bool :=
  match s with EmptyString => false | _ => true end.

(** ["".join(parts)]. *)
Definition concat_all (parts : list string) : string :=
  fold_right append EmptyString parts.

End Str.

(* ------------------------------------------------------------------ *)
(** ** Exceptions and fallible results *)

Inductive exn_class : Type :=
| ValueError | TypeError | AttributeError | KeyError | IndexError
| OtherError.

(** An exception: its class and [str(e)]. *)
Record exn : Type := Exn { exn_cls : exn_class; exn_str : string }.

Inductive result (A : Type) : Type :=
| Ok (a : A)
| Raise (e : exn).
Arguments Ok {A} a.
Arguments Raise {A} e.

Definition rbind {A B} (r : result A) (k : A -> result B) : result B :=
  match r with
  | Ok a => k a
  | Raise e => Raise e
  end.

Declare Scope py_scope.
Delimit Scope py_scope with py.
Notation "'try!' x <- r ; k" := (rbind r (fun x => k))
  (at level 61, x name, r at next level, right associativity) : py_scope.

(* ------------------------------------------------------------------ *)
(** ** External calls and the call log *)

Definition bytes : Type := list Byte.byte.

Definition blen (b : bytes) : Z := Z.of_nat (List.length b).

Inductive call : Type :=
| FitzOpen (stream : bytes)
| LoadPage (page_num : nat)
| RequestsGet (url : string) (timeout : Z).

(** A computation: its value and the external calls it made, in order. *)
Definition io (A : Type) : Type := (A * list call)%type.

Definition ret {A} (a : A) : io A := (a, []).

Definition bind {A B} (m : io A) (k : A -> io B) : io B :=
  let '(b, later) := k (fst m) in (b, (snd m ++ later)%list).

Definition emit (c : call) : io unit := (tt, [c]).

Definition value {A} (m : io A) : A := fst m.
Definition calls {A} (m : io A) : list call := snd m.

Notation "x <- m ;; k" := (bind m (fun x => k))
  (at level 61, m at next level, right associativity) : py_scope.
Notation "m ;;; k" := (bind m (fun _ => k))
  (at level 61, right associativity) : py_scope.

(* ------------------------------------------------------------------ *)
(** ** Python values that a JSON body can hold *)

#[warnings="-register-all"]
Inductive pyvalue : Type :=
| VNone
| VBool (b : bool)
| VInt (n : Z)
| VFloat (x : spec_float)
| VStr (s : string)
| VList (xs : list pyvalue)
| VDict (items : list (string * pyvalue)).

Module Py.

(** [type(v).__name__]. *)
Definition type_name (v : pyvalue) : string :=
  match v with
  | VNone => "NoneType"
  | VBool _ => "bool"
  | VInt _ => "int"
  | VFloat _ => "float"
  | VStr _ => "str"
  | VList _ => "list"
  | VDict _ => "dict"
  end.

(** [bool(v)]. *)
Definition truthy (v : pyvalue) : bool :=
  match v with
  | VNone => false
  | VBool b => b
  | VInt n => negb (n =? 0)
  | VFloat (S754_zero _) => false
  | VFloat _ => true
  | VStr s => Str.truthy s
  | VList [] => false
  | VList (_ :: _) => true
  | VDict [] => false
  | VDict (_ :: _) => true
  end.

Definition is_str (v : pyvalue) : bool :=
  match v with VStr _ => true | _ => false end.

(** [len(v)]. *)
Definition len (v : pyvalue) : result Z :=
  match v with
  | VStr s => Ok (Str.len s)
  | VList xs => Ok (Z.of_nat (List.length xs))
  | VDict items => Ok (Z.of_nat (List.length items))
  | _ => Raise (Exn TypeError
                  ("object of type '" ++ type_name v ++ "' has no len()"))
  end.

(** Lookup in a dict, kept as its items in insertion order. *)
Fixpoint lookup (items : list (string * pyvalue)) (key : string)
    : option pyvalue :=
  match items with
  | [] => None
  | (k, v) :: rest => if String.eqb k key then Some v else lookup rest key
  end.

Definition is_the_str (key : string) (v : pyvalue) : bool :=
  match v with VStr s => String.eqb s key | _ => false end.

(** [key in v] for a str [key]: a key of a dict, an element of a list, a
    substring of a str. *)
Definition contains (v : pyvalue) (key : string) : result bool :=
  match v with
  | VDict items =>
      Ok (match lookup items key with Some _ => true | None => false end)
  | VList xs => Ok (existsb (is_the_str key) xs)
  | VStr s => Ok (Str.contains s key)
  | _ => Raise (Exn TypeError
                  ("argument of type '" ++ type_name v ++ "' is not iterable"))
  end.

(** [v[key]] for a str [key]. *)
Definition getitem (v : pyvalue) (key : string) : result pyvalue :=
  match v with
  | VDict items =>
      match lookup items key with
      | Some x => Ok x
      | None => Raise (Exn KeyError ("'" ++ key ++ "'"))
      end
  | VList _ =>
      Raise (Exn TypeError "list indices must be integers or slices, not str")
  | VStr _ => Raise (Exn TypeError "string indices must be integers")
  | _ => Raise (Exn TypeError
                  ("'" ++ type_name v ++ "' object is not subscriptable"))
  end.

(** [v[0]]. *)
Definition first (v : pyvalue) : result pyvalue :=
  match v with
  | VList (x :: _) => Ok x
  | VList [] => Raise (Exn IndexError "list index out of range")
  | VStr (String c _) => Ok (VStr (String c EmptyString))
  | VStr EmptyString => Raise (Exn IndexError "string index out of range")
  | VDict _ => Raise (Exn KeyError "0")
  | _ => Raise (Exn TypeError
                  ("'" ++ type_name v ++ "' object is not subscriptable"))
  end.

(** [v.get(key, default)]. *)
Definition get (v : pyvalue) (key : string) (default : pyvalue)
    : result pyvalue :=
  match v with
  | VDict items =>
      Ok (match lookup items key with Some x => x | None => default end)
  | _ => Raise (Exn AttributeError
                  ("'" ++ type_name v ++ "' object has no attribute 'get'"))
  end.

(** [bool(error)] for the second component of an outcome. *)
Definition truthy_error (error : option string) : bool :=
  match error with
  | Some message => Str.truthy message
  | None => false
  end.

End Py.

(* ------------------------------------------------------------------ *)
(** ** Requests and responses of the HTTP trigger *)

(** The answer of [requests.get]. *)
Record reply : Type := Reply {
  status_code : Z;
  reply_content : bytes
}.

(** What the handler reads from [req]: the Content-Type header (or the
    empty string), what [req.get_json()] does, and [req.get_body()]. *)
Record HttpRequest : Type := Request {
  req_content_type : string;
  req_get_json : result pyvalue;
  req_get_body : bytes
}.

Record HttpResponse : Type := Response {
  resp_body : string;
  resp_mimetype : string;
  resp_status : Z
}.

(** [func.HttpResponse] leaves the status code at 200 and the MIME type at
    text/plain when they are not given. *)
Definition default_status : Z := 200.
Definition default_mimetype : string := "text/plain".

(** [{"values": [{"recordId": record_id, "errors": [message]}]}]. *)
Definition error_envelope (record_id : pyvalue) (message : string)
    : pyvalue :=
  VDict [("values",
          VList [VDict [("recordId", record_id);
                        ("errors", VList [VStr message])]])].

(** [{"values": [{"recordId": record_id, "data": {"pages": pages}}]}]. *)
Definition pages_envelope (record_id : pyvalue) (pages : pyvalue)
    : pyvalue :=
  VDict [("values",
          VList [VDict [("recordId", record_id);
                        ("data", VDict [("pages", pages)])]])].

(** [pages] as a Python value: [None] or a list of str. *)
Definition pages_value (pages : option (list string)) : pyvalue :=
  match pages with
  | Some texts => VList (map VStr texts)
  | None => VNone
  end.

(* ------------------------------------------------------------------ *)
(** ** The PDF library's view of a document *)

(** An opened document: [len(pdf_document)] and, for each page number, what
    [load_page(page_num).get_text("text")] yields (a text or an exception). *)
Record document : Type := Document {
  doc_len : nat;
  doc_page_text : nat -> result string
}.

(** [(pages, error)]. *)
Definition outcome : Type := (option (list string) * option string)%type.

(* ------------------------------------------------------------------ *)
(** ** A reference base64 decoder

    [base64.b64decode] is a variable of the development below.  This is the
    decoder of the standard library in its default, non-validating mode, to
    run the program on concrete inputs: characters outside the alphabet are
    skipped, decoding stops at a complete padding sequence, and what is left
    over must not be a partial group. *)

Module Base64.

Definition digit (c : ascii) : option N :=
  let n := N_of_ascii c in
  if ((65 <=? n) && (n <=? 90))%N then Some (n - 65)%N
  else if ((97 <=? n) && (n <=? 122))%N then Some (n - 71)%N
  else if ((48 <=? n) && (n <=? 57))%N then Some (n + 4)%N
  else if (n =? 43)%N then Some 62%N
  else if (n =? 47)%N then Some 63%N
  else None.

Definition octet (n : N) : Byte.byte :=
  byte_of_ascii (ascii_of_N (N.land n 255)).

Definition is_pad (c : ascii) : bool := Ascii.eqb c "="%char.

Definition data_chars (data : string) : nat :=
  List.length
    (filter (fun c => match digit c with Some _ => negb (is_pad c) | None => false end)
       (list_ascii_of_string data)).

Fixpoint a2b (data : string) (quad_pos : nat) (leftchar : N) (pads : nat)
    (out : bytes) : option bytes :=
  match data with
  | EmptyString => if Nat.eqb quad_pos 0 then Some out else None
  | String c rest =>
      if is_pad c then
        if Nat.leb 2 quad_pos then
          if Nat.leb 4 (quad_pos + S pads) then Some out
          else a2b rest quad_pos leftchar (S pads) out
        else a2b rest quad_pos leftchar pads out
      else
        match digit c with
        | None => a2b rest quad_pos leftchar pads out
        | Some v =>
            match quad_pos with
            | O => a2b rest 1 v 0 out
            | 1%nat =>
                a2b rest 2 (N.land v 15) 0
                  (out ++ [octet (N.lor (N.shiftl leftchar 2) (N.shiftr v 4))])%list
            | 2%nat =>
                a2b rest 3 (N.land v 3) 0
                  (out ++ [octet (N.lor (N.shiftl leftchar 4) (N.shiftr v 2))])%list
            | _ =>
                a2b rest 0 0 0
                  (out ++ [octet (N.lor (N.shiftl leftchar 6) v)])%list
            end
        end
  end.

Definition is_ascii (s : string) : bool :=
  forallb (fun c => (N_of_ascii c <? 128)%N) (list_ascii_of_string s).

Definition b64decode (s : string) : result bytes :=
  if is_ascii s then
    match a2b s 0 0 0 [] with
    | Some out => Ok out
    | None =>
        Raise (Exn ValueError
                 (if Nat.eqb (Nat.modulo (data_chars s) 4) 1
                  then "Invalid base64-encoded string: number of data characters ("
                       ++ Str.of_int (Z.of_nat (data_chars s))
                       ++ ") cannot be 1 more than a multiple of 4"
                  else "Incorrect padding"))
    end
  else Raise (Exn ValueError
                "string argument should contain only ASCII characters").

End Base64.

(* ------------------------------------------------------------------ *)
(** ** A reference serializer

    [json.dumps] is a variable of the development below as well.  This one
    renders the values of the samples: strings that need no escaping, and
    no finite non-zero floats. *)

Module Json.

Definition quote : string := String "034"%char EmptyString.

Definition float_text (x : spec_float) : string :=
  match x with
  | S754_zero false => "0.0"
  | S754_zero true => "-0.0"
  | S754_infinity false => "Infinity"
  | S754_infinity true => "-Infinity"
  | S754_nan => "NaN"
  | S754_finite _ _ _ => ""
  end.

Fixpoint dumps (v : pyvalue) : string :=
  match v with
  | VNone => "null"
  | VBool true => "true"
  | VBool false => "false"
  | VInt n => Str.of_int n
  | VFloat x => float_text x
  | VStr s => quote ++ s ++ quote
  | VList xs =>
      "[" ++ (fix elements (xs : list pyvalue) : string :=
                match xs with
                | [] => ""
                | x :: rest =>
                    match rest with
                    | [] => dumps x
                    | _ :: _ => dumps x ++ ", " ++ elements rest
                    end
                end) xs ++ "]"
  | VDict items =>
      "{" ++ (fix members (items : list (string * pyvalue)) : string :=
                match items with
                | [] => ""
                | (k, x) :: rest =>
                    match rest with
                    | [] => quote ++ k ++ quote ++ ": " ++ dumps x
                    | _ :: _ =>
                        quote ++ k ++ quote ++ ": " ++ dumps x ++ ", "
                          ++ members rest
                    end
                end) items ++ "}"
  end.

End Json.

(* ------------------------------------------------------------------ *)
(** ** Sample inputs *)

Module Sample.

(** The bytes of "%PDF". *)
Definition magic : bytes := [Byte.x25; Byte.x50; Byte.x44; Byte.x46].

(** 100 bytes that start like a PDF file, and 4 that do. *)
Definition pdf_bytes : bytes := (magic ++ List.repeat Byte.x20 96)%list.
Definition tiny : bytes := magic.

(** A book of 301 pages: the first page is 100,001 characters long, the
    second cannot be loaded, the others are short. *)
Definition book : document :=
  Document 301
    (fun page_num =>
       match page_num with
       | 0%nat => Ok (Str.repeat "x" 100001)
       | 1%nat => Raise (Exn OtherError "cannot load page")
       | _ => Ok ("text of page " ++ Str.of_int (Z.of_nat page_num + 1))
       end).

(** A PDF library that opens whatever starts with the magic number, as
    that book. *)
Definition fitz_open (stream : bytes) : result document :=
  match stream with
  | Byte.x25 :: Byte.x50 :: Byte.x44 :: Byte.x46 :: _ => Ok book
  | _ => Raise (Exn OtherError "Failed to open stream")
  end.

(** An HTTP client that finds nothing. *)
Definition requests_get (url : string) : result reply :=
  Ok (Reply 404 []).

(** ["a\n" * 3000], and one line of 6000 characters. *)
Definition a_lines : string := Str.repeat ("a" ++ Str.nl) 3000.
Definition long_line : string := Str.repeat "a" 6000.

(** ["ab\n" * 2001] and one line of 6001 characters: neither is base64,
    with 4002 and 6001 characters of the alphabet. *)
Definition ab_lines : string := Str.repeat ("ab" ++ Str.nl) 2001.
Definition odd_line : string := Str.repeat "a" 6001.

(** A no-break space, U+00A0: whitespace for [str.isspace], and not
    ASCII. *)
Definition nbsp : string := String (ascii_of_nat 160) EmptyString.

(** [{"values": [{"recordId": "r1"}]}]: a record without data. *)
Definition without_data : pyvalue :=
  VDict [("values", VList [VDict [("recordId", VStr "r1")]])].

(** [{"values": [{"recordId": "r1", "data": {"content": ""}}]}]. *)
Definition empty_content : pyvalue :=
  VDict [("values",
          VList [VDict [("recordId", VStr "r1");
                        ("data", VDict [("content", VStr "")])]])].

(** Two records, and the first of them alone. *)
Definition first_record : pyvalue :=
  VDict [("recordId", VStr "r1");
         ("data", VDict [("content", VStr "hello world")])].
Definition second_record : pyvalue :=
  VDict [("recordId", VStr "r2");
         ("data", VDict [("content", VStr "https://example.org/b.pdf")])].
Definition two_records : list (string * pyvalue) :=
  [("values", VList [first_record; second_record])].
Definition one_record : list (string * pyvalue) :=
  [("values", VList [first_record])].

End Sample.

Local Open Scope py_scope.

Section FunctionApp.

(** [fitz.open(stream=pdf_bytes, filetype="pdf")]. *)
Variable fitz_open : bytes -> result document.

(* ------------------------------------------------------------------ *)
(** ** process_pdf (lines 13-51) *)

(** Lines 39-40. *)
Definition limit_text (text : string) : string :=
  if 100000 <? Str.len text
  then Str.slice_to 100000 text ++ "... [content truncated]"
  else text.

(** Line 45. *)
Definition page_placeholder (page_num : nat) (page_error : exn) : string :=
  "[Error extracting page " ++ Str.of_int (Z.of_nat page_num + 1) ++ ": "
    ++ exn_str page_error ++ "]".

(** What one pass of the loop body appends for a page (lines 35-45). *)
Definition page_entry (pdf_document : document) (page_num : nat) : string :=
  match doc_page_text pdf_document page_num with
  | Ok text => limit_text text
  | Raise page_error => page_placeholder page_num page_error
  end.

(** The loop of lines 34-45 over the remaining page numbers. *)
Fixpoint extract_pages (pdf_document : document) (page_nums : list nat)
    (pages : list string) : io (list string) :=
  match page_nums with
  | [] => ret pages
  | page_num :: rest =>
      emit (LoadPage page_num) ;;;
      extract_pages pdf_document rest
        (pages ++ [page_entry pdf_document page_num])
  end.

(** [len(pdf_document)] is taken to succeed on a document that was opened:
    [doc_len] is a number.  Then nothing in the body raises outside the two
    inner handlers, and the outer handler of lines 48-51, which would
    return the error "Error processing PDF: <reason>", has no case here. *)
Definition process_pdf (pdf_bytes : bytes) : io outcome :=
  if blen pdf_bytes <? 100 then
    ret (None, Some "PDF data too small to be valid")
  else
    emit (FitzOpen pdf_bytes) ;;;
    match fitz_open pdf_bytes with
    | Raise e => ret (None, Some ("Cannot open PDF document: " ++ exn_str e))
    | Ok pdf_document =>
        let total_page_count := doc_len pdf_document in
        let max_pages := Nat.min total_page_count 300 in
        pages <- extract_pages pdf_document (seq 0 max_pages) [] ;;
        ret (Some pages, None)
    end.

(* ------------------------------------------------------------------ *)
(** ** process_skillset_content (lines 53-104) *)

(** [requests.get(content, timeout=30)]. *)
Variable requests_get : string -> result reply.

(** [base64.b64decode] on a str. *)
Variable b64decode_str : string -> result bytes.

(** [base64.b64decode(content)]: a JSON value that is not a str is not
    bytes-like either. *)
Definition b64decode (content : pyvalue) : result bytes :=
  match content with
  | VStr s => b64decode_str s
  | _ => Raise (Exn TypeError
                  ("argument should be a bytes-like object or ASCII string, not '"
                   ++ Py.type_name content ++ "'"))
  end.

(** Line 60: the content as a URL, when it is a str that starts with
    "http" or with "https". *)
Definition as_url (content : pyvalue) : option string :=
  match content with
  | VStr s =>
      if Str.startswith s "http" || Str.startswith s "https"
      then Some s else None
  | _ => None
  end.

(** Lines 62-73: the URL branch. *)
Definition fetch_url (content : string) : io outcome :=
  emit (RequestsGet content 30) ;;;
  match requests_get content with
  | Raise e => ret (None, Some ("Error downloading from URL: " ++ exn_str e))
  | Ok response =>
      if status_code response =? 200 then
        let pdf_bytes := reply_content response in
        process_pdf pdf_bytes
      else
        ret (None, Some ("Failed to download from URL: status code "
                         ++ Str.of_int (status_code response)))
  end.

(** The loop of lines 89-93: the pages completed so far and the page being
    filled. *)
Fixpoint split_pages (lines : list string) (pages : list string)
    (current_page : string) : list string * string :=
  match lines with
  | [] => (pages, current_page)
  | line :: rest =>
      let current_page := current_page ++ line ++ Str.nl in
      if 5000 <? Str.len current_page
      then split_pages rest (pages ++ [current_page]) ""
      else split_pages rest pages current_page
  end.

(** Lines 94-95: a page left unfinished is the last page. *)
Definition finish_pages (state : list string * string) : list string :=
  let '(pages, current_page) := state in
  if Str.truthy current_page then pages ++ [current_page] else pages.

(** Lines 86-95: the raw-text paginator. *)
Definition paginate (content : string) : list string :=
  let lines := Str.split_lines content in
  finish_pages (split_pages lines [] "").

(** Some input lines, each closed by a newline again. *)
Definition join_lines (lines : list string) : string :=
  Str.concat_all (map (fun line => line ++ Str.nl) lines).

(** The number of characters of the input's lines before the last one,
    newlines counted: the length of the input up to its last newline. *)
Definition terminated_chars (content : string) : Z :=
  Str.len (join_lines (removelast (Str.split_lines content))).

(** Lines 85-99: the raw-text branch with its guard. *)
Definition raw_text (content : pyvalue) : outcome :=
  match content with
  | VStr s =>
      if Py.truthy content then (Some (paginate s), None)
      else (None, Some "Invalid or empty content")
  | _ => (None, Some "Invalid or empty content")
  end.

Definition process_skillset_content (content record_id : pyvalue)
    : io outcome :=
  match (if Py.truthy content then Py.len content else Ok 0) with
  | Raise e => ret (None, Some ("Error processing content: " ++ exn_str e))
  | Ok _ =>
      match as_url content with
      | Some url => fetch_url url
      | None =>
          match b64decode content with
          | Ok pdf_bytes => process_pdf pdf_bytes
          | Raise _ => ret (raw_text content)
          end
      end
  end.

(** The classifier in the spec's words: an ordered choice between a URL,
    base64-encoded binary and raw text, and what each kind is handed to. *)
Inductive route : Type :=
| Url (url : string)
| Base64Binary (pdf_bytes : bytes)
| RawText (text : string).

Definition classify (content : string) : route :=
  if Str.startswith content "http" then Url content
  else
    match b64decode_str content with
    | Ok pdf_bytes => Base64Binary pdf_bytes
    | Raise _ => RawText content
    end.

Definition dispatch (r : route) : io outcome :=
  match r with
  | Url url => fetch_url url
  | Base64Binary pdf_bytes => process_pdf pdf_bytes
  | RawText text => ret (Some (paginate text), None)
  end.

(* ------------------------------------------------------------------ *)
(** ** split_pdf and create_error_response (lines 106-235) *)

(** [json.dumps]. *)
Variable json_dumps : pyvalue -> string.

(** Lines 221-235: no status code is given. *)
Definition create_error_response (record_id : pyvalue)
    (error_message : string) : HttpResponse :=
  let response := error_envelope record_id error_message in
  Response (json_dumps response) "application/json" default_status.

(** Lines 203-219: the handler of last resort. *)
Definition general_error (e : exn) : HttpResponse :=
  Response
    (json_dumps
       (error_envelope (VStr "0") ("General function error: " ++ exn_str e)))
    "application/json" 500.

(** Line 132: ['values' in request_json and len(request_json['values']) > 0]. *)
Definition has_values (request_json : pyvalue) : result bool :=
  try! present <- Py.contains request_json "values";
  if present then
    try! values <- Py.getitem request_json "values";
    try! n <- Py.len values;
    Ok (0 <? n)
  else Ok false.

(** Lines 145-166: a record with content. *)
Definition answer_record (record_id content : pyvalue) : io HttpResponse :=
  r <- process_skillset_content content record_id ;;
  let '(pages, error) := r in
  if Py.truthy_error error then
    ret (create_error_response record_id
           (match error with Some message => message | None => "" end))
  else
    let response := pages_envelope record_id (pages_value pages) in
    ret (Response (json_dumps response) "application/json" default_status).

(** Lines 132-180: the body of the skillset branch once the JSON is read. *)
Definition skillset (request_json : pyvalue) : result (io HttpResponse) :=
  try! ok <- has_values request_json;
  if ok then
    try! values <- Py.getitem request_json "values";
    try! record <- Py.first values;
    try! record_id <- Py.get record "recordId" (VStr "0");
    try! has_data <- Py.contains record "data";
    if negb has_data then
      Ok (ret (create_error_response record_id "No data field in request"))
    else
      try! data <- Py.getitem record "data";
      try! content <- Py.get data "content" (VStr "");
      if negb (Py.truthy content) then
        Ok (ret (create_error_response record_id
                   "No content provided in request"))
      else Ok (answer_record record_id content)
  else
    Ok (ret (Response
               (json_dumps
                  (error_envelope (VStr "0")
                     "Invalid request format: missing 'values' array"))
               "application/json" 400)).

(** [{"page_number": i+1, "content": content}] for each page. *)
Fixpoint numbered (i : Z) (pages : list string) : list pyvalue :=
  match pages with
  | [] => []
  | content :: rest =>
      VDict [("page_number", VInt (i + 1)); ("content", VStr content)]
        :: numbered (i + 1) rest
  end.

(** Lines 183-202: a direct upload. *)
Definition direct (pdf_bytes : bytes) : io HttpResponse :=
  if blen pdf_bytes =? 0 then
    ret (Response "No PDF data received in request body."
           default_mimetype 400)
  else
    r <- process_pdf pdf_bytes ;;
    let '(pages, error) := r in
    if Py.truthy_error error then
      ret (Response
             ("Error: " ++ match error with Some m => m | None => "" end)
             default_mimetype 500)
    else
      match pages with
      | Some pages =>
          ret (Response (json_dumps (VDict [("pages", VList (numbered 0 pages))]))
                 "application/json" default_status)
      | None =>
          ret (general_error
                 (Exn TypeError "'NoneType' object is not iterable"))
      end.

Definition split_pdf (req : HttpRequest) : io HttpResponse :=
  let content_type := req_content_type req in
  if Str.contains content_type "application/json" then
    match req_get_json req with
    | Raise e =>
        match exn_cls e with
        | ValueError =>
            ret (Response
                   (json_dumps
                      (error_envelope (VStr "0") "Invalid JSON in request"))
                   "application/json" 400)
        | _ => ret (general_error e)
        end
    | Ok request_json =>
        match skillset request_json with
        | Ok answer => answer
        | Raise e => ret (general_error e)
        end
    end
  else direct (req_get_body req).

(** The record id read from a record: its "recordId", or "0". *)
Definition record_id_of (record : list (string * pyvalue)) : pyvalue :=
  match Py.lookup record "recordId" with
  | Some x => x
  | None => VStr "0"
  end.

(** The content read from a record's data: its "content", or "". *)
Definition content_of (data : list (string * pyvalue)) : pyvalue :=
  match Py.lookup data "content" with
  | Some x => x
  | None => VStr ""
  end.

(** A response body that is one serialized [{"values": [entry]}]. *)
Definition single_entry (response : HttpResponse) : Prop :=
  exists entry,
    resp_body response = json_dumps (VDict [("values", VList [entry])]).

(** An outcome as its users expect it: pages and no error, or no pages and
    an error that [if error:] sees. *)
Definition well_formed (o : outcome) : Prop :=
  (exists pages, o = (Some pages, None)) \/
  (exists message, o = (None, Some message) /\ Str.truthy message = true).

(** A page that fitted in 5,000 characters before its last line, one of
    [lines], was added. *)
Definition one_line_over (lines : list string) (page : string) : Prop :=
  exists head line,
    In line lines /\ page = head ++ line ++ Str.nl /\ Str.len head <= 5000.

(** [{"page_number": i+1, "content": content}]. *)
Definition page_item (i : nat) (content : string) : pyvalue :=
  VDict [("page_number", VInt (Z.of_nat i + 1)); ("content", VStr content)].

(** A pipeline-mode response as a caller parses it: JSON that is the error
    envelope, under one of the three statuses, or the pages envelope with a
    list of pages, under status 200. *)
Definition enveloped (response : HttpResponse) : Prop :=
  resp_mimetype response = "application/json" /\
  ((exists record_id message,
      resp_body response = json_dumps (error_envelope record_id message) /\
      (resp_status response = 200 \/ resp_status response = 400 \/
       resp_status response = 500)) \/
   (exists record_id pages,
      resp_body response =
        json_dumps (pages_envelope record_id (VList (map VStr pages))) /\
      resp_status response = 200)).

(** The calls of one extraction: none, an open that fails, or an open
    followed by the loads of pages 0 to n-1 for some n up to 300. *)
Definition extraction_calls (cs : list call) : Prop :=
  cs = [] \/
  exists pdf_bytes,
    cs = [FitzOpen pdf_bytes] \/
    exists n, (n <= 300)%nat /\
      cs = FitzOpen pdf_bytes :: map LoadPage (seq 0 n).

(* ------------------------------------------------------------------ *)
(** ** Facts about strings and the call log *)

Lemma append_empty_r (s : string) : s ++ "" = s.
Proof. induction s as [|c s IH]; simpl; [reflexivity | now rewrite IH]. Qed.

Lemma append_assoc (s t u : string) : (s ++ t) ++ u = s ++ t ++ u.
Proof. induction s as [|c s IH]; simpl; [reflexivity | now rewrite IH]. Qed.

Lemma len_append (s t : string) : Str.len (s ++ t) = Str.len s + Str.len t.
Proof.
  unfold Str.len. induction s as [|c s IH]; simpl String.length.
  - reflexivity.
  - rewrite !Nat2Z.inj_succ. simpl in IH. lia.
Qed.

Lemma len_nonneg (s : string) : 0 <= Str.len s.
Proof. unfold Str.len. lia. Qed.

Lemma len_nl : Str.len Str.nl = 1.
Proof. reflexivity. Qed.

Lemma truthy_len (s : string) : Str.truthy s = (0 <? Str.len s).
Proof.
  destruct s as [|c s]; [reflexivity|].
  unfold Str.len. simpl String.length. rewrite Nat2Z.inj_succ.
  symmetry. apply Z.ltb_lt. lia.
Qed.

(** A prefix taken by [substring] is a prefix, of the length asked for when
    the string is that long. *)
Lemma substring_prefix (n : nat) (s : string) :
  exists rest, s = substring 0 n s ++ rest.
Proof.
  revert s. induction n as [|n IH]; intros s.
  - exists s. destruct s; reflexivity.
  - destruct s as [|c s].
    + exists "". reflexivity.
    + destruct (IH s) as [rest Hrest]. exists rest. simpl.
      now rewrite <- Hrest.
Qed.

Lemma substring_length (n : nat) (s : string) :
  (n <= String.length s)%nat -> String.length (substring 0 n s) = n.
Proof.
  revert s. induction n as [|n IH]; intros s Hn.
  - destruct s; reflexivity.
  - destruct s as [|c s]; simpl in *; [lia|].
    rewrite IH; [reflexivity | lia].
Qed.

Lemma slice_to_prefix (stop : Z) (s : string) :
  exists rest, s = Str.slice_to stop s ++ rest.
Proof. apply substring_prefix. Qed.

Lemma slice_to_len (stop : Z) (s : string) :
  0 <= stop <= Str.len s -> Str.len (Str.slice_to stop s) = stop.
Proof.
  unfold Str.len, Str.slice_to. intros H.
  rewrite substring_length; lia.
Qed.

Lemma bind_eq {A B} (m : io A) (k : A -> io B) :
  bind m k = (value (k (value m)), (calls m ++ calls (k (value m)))%list).
Proof. unfold bind, value, calls. destruct (k (fst m)). reflexivity. Qed.

(* ------------------------------------------------------------------ *)
(** ** The PDF text extractor *)

Lemma extract_pages_eq (doc : document) (page_nums : list nat)
    (pages : list string) :
  extract_pages doc page_nums pages =
  ((pages ++ map (page_entry doc) page_nums)%list, map LoadPage page_nums).
Proof.
  revert pages. induction page_nums as [|n rest IH]; intros pages.
  - simpl. now rewrite app_nil_r.
  - simpl. rewrite bind_eq, IH. unfold value, calls. simpl.
    now rewrite <- app_assoc.
Qed.

(** Once the document is open the outcome is the list of page entries of
    the first [min(total, 300)] pages; the log shows the open call and one
    page load per page kept. *)
Lemma process_pdf_opened (pdf_bytes : bytes) (doc : document) :
  100 <= blen pdf_bytes ->
  fitz_open pdf_bytes = Ok doc ->
  process_pdf pdf_bytes =
  ((Some (map (page_entry doc) (seq 0 (Nat.min (doc_len doc) 300))), None),
   FitzOpen pdf_bytes :: map LoadPage (seq 0 (Nat.min (doc_len doc) 300))).
Proof.
  intros Hlen Hopen. unfold process_pdf.
  destruct (blen pdf_bytes <? 100) eqn:Hsmall.
  - apply Z.ltb_lt in Hsmall. lia.
  - rewrite Hopen. cbv zeta. rewrite !bind_eq, extract_pages_eq.
    unfold value, calls, ret, emit. cbn [fst snd app].
    now rewrite app_nil_r.
Qed.

Lemma nth_error_entries (doc : document) (n k : nat) :
  (k < n)%nat ->
  nth_error (map (page_entry doc) (seq 0 n)) k = Some (page_entry doc k).
Proof.
  intros Hk. rewrite nth_error_map, nth_error_seq.
  destruct (Nat.ltb_spec k n); [reflexivity | lia].
Qed.

Lemma limit_text_short (text : string) :
  Str.len text <= 100000 -> limit_text text = text.
Proof.
  intros H. unfold limit_text.
  destruct (100000 <? Str.len text) eqn:E; [|reflexivity].
  apply Z.ltb_lt in E. lia.
Qed.

Lemma limit_text_long (text : string) :
  100000 < Str.len text ->
  limit_text text = Str.slice_to 100000 text ++ "... [content truncated]".
Proof.
  intros H. unfold limit_text.
  destruct (100000 <? Str.len text) eqn:E; [reflexivity|].
  apply Z.ltb_ge in E. lia.
Qed.

(** C9.  Input shorter than 100 bytes is rejected with no pages and the
    error "PDF data too small to be valid", and the call log is empty: the
    PDF library is never asked to open it. *)
Theorem process_pdf_too_small (pdf_bytes : bytes) :
  blen pdf_bytes < 100 ->
  process_pdf pdf_bytes =
  ((None, Some "PDF data too small to be valid"), []).
Proof.
  intros H. unfold process_pdf.
  destruct (blen pdf_bytes <? 100) eqn:E; [reflexivity|].
  apply Z.ltb_ge in E. lia.
Qed.

(** C3.  A document that process_pdf opens and that reports N pages gives
    exactly min(N, 300) pages and no error, position k holding the entry of
    page k; so never more than 300 pages, and only the pages kept are ever
    loaded, in document order. *)
Theorem process_pdf_page_count (pdf_bytes : bytes) (doc : document) :
  100 <= blen pdf_bytes ->
  fitz_open pdf_bytes = Ok doc ->
  exists pages,
    value (process_pdf pdf_bytes) = (Some pages, None) /\
    List.length pages = Nat.min (doc_len doc) 300 /\
    (List.length pages <= 300)%nat /\
    (forall k, (k < Nat.min (doc_len doc) 300)%nat ->
               nth_error pages k = Some (page_entry doc k)) /\
    calls (process_pdf pdf_bytes) =
    FitzOpen pdf_bytes :: map LoadPage (seq 0 (Nat.min (doc_len doc) 300)).
Proof.
  intros Hlen Hopen.
  exists (map (page_entry doc) (seq 0 (Nat.min (doc_len doc) 300))).
  rewrite (process_pdf_opened _ _ Hlen Hopen). unfold value, calls.
  rewrite length_map, length_seq.
  repeat split.
  - apply Nat.le_min_r.
  - intros k Hk. now apply nth_error_entries.
Qed.

(** C5.  A page whose extracted text is longer than 100,000 characters is
    returned as its first 100,000 characters followed by the marker
    "... [content truncated]"; a page of at most 100,000 characters is
    returned verbatim. *)
Theorem process_pdf_limits_page_text (pdf_bytes : bytes) (doc : document)
    (k : nat) (text : string) :
  100 <= blen pdf_bytes ->
  fitz_open pdf_bytes = Ok doc ->
  (k < Nat.min (doc_len doc) 300)%nat ->
  doc_page_text doc k = Ok text ->
  exists pages,
    value (process_pdf pdf_bytes) = (Some pages, None) /\
    (100000 < Str.len text ->
     exists first rest,
       text = first ++ rest /\ Str.len first = 100000 /\
       nth_error pages k = Some (first ++ "... [content truncated]")) /\
    (Str.len text <= 100000 -> nth_error pages k = Some text).
Proof.
  intros Hlen Hopen Hk Htext.
  exists (map (page_entry doc) (seq 0 (Nat.min (doc_len doc) 300))).
  rewrite (process_pdf_opened _ _ Hlen Hopen). unfold value.
  rewrite (nth_error_entries _ _ _ Hk). unfold page_entry. rewrite Htext.
  split; [reflexivity|]. split.
  - intros Hlong. destruct (slice_to_prefix 100000 text) as [rest Hrest].
    exists (Str.slice_to 100000 text), rest.
    split; [exact Hrest|]. split.
    + apply slice_to_len. lia.
    + now rewrite limit_text_long.
  - intros Hshort. now rewrite limit_text_short.
Qed.

(** C1 (amended).  When the extraction of page K raises, process_pdf still
    returns min(total, 300) pages and no error; position K holds the
    placeholder "[Error extracting page <K+1>: <reason>]"; every other
    position holds what its own page gives, whatever page K did: the
    extracted text unchanged when it is at most 100,000 characters long,
    its first 100,000 characters and the truncation marker when it is
    longer, and the page's own placeholder when it cannot be extracted
    either. *)
Theorem process_pdf_isolates_page_fault (pdf_bytes : bytes)
    (doc : document) (K : nat) (page_error : exn) :
  100 <= blen pdf_bytes ->
  fitz_open pdf_bytes = Ok doc ->
  (K < Nat.min (doc_len doc) 300)%nat ->
  doc_page_text doc K = Raise page_error ->
  exists pages,
    value (process_pdf pdf_bytes) = (Some pages, None) /\
    List.length pages = Nat.min (doc_len doc) 300 /\
    nth_error pages K =
      Some ("[Error extracting page " ++ Str.of_int (Z.of_nat K + 1) ++ ": "
            ++ exn_str page_error ++ "]") /\
    (forall j text, j <> K -> (j < Nat.min (doc_len doc) 300)%nat ->
       doc_page_text doc j = Ok text ->
       (Str.len text <= 100000 -> nth_error pages j = Some text) /\
       (100000 < Str.len text ->
        exists first rest,
          text = first ++ rest /\ Str.len first = 100000 /\
          nth_error pages j = Some (first ++ "... [content truncated]"))) /\
    (forall j e, j <> K -> (j < Nat.min (doc_len doc) 300)%nat ->
       doc_page_text doc j = Raise e ->
       nth_error pages j =
         Some ("[Error extracting page " ++ Str.of_int (Z.of_nat j + 1)
               ++ ": " ++ exn_str e ++ "]")).
Proof.
  intros Hlen Hopen HK Hfault.
  exists (map (page_entry doc) (seq 0 (Nat.min (doc_len doc) 300))).
  rewrite (process_pdf_opened _ _ Hlen Hopen). unfold value.
  rewrite length_map, length_seq.
  split; [reflexivity|]. split; [reflexivity|]. split; [|split].
  - rewrite (nth_error_entries _ _ _ HK). unfold page_entry.
    now rewrite Hfault.
  - intros j text _ Hj Htext.
    rewrite (nth_error_entries _ _ _ Hj). unfold page_entry.
    rewrite Htext. split.
    + intros Hshort. now rewrite limit_text_short.
    + intros Hlong. destruct (slice_to_prefix 100000 text) as [rest Hrest].
      exists (Str.slice_to 100000 text), rest.
      split; [exact Hrest|]. split.
      * apply slice_to_len. lia.
      * now rewrite limit_text_long.
  - intros j e _ Hj He.
    rewrite (nth_error_entries _ _ _ Hj). unfold page_entry.
    now rewrite He.
Qed.

(* ------------------------------------------------------------------ *)
(** ** The raw-text paginator *)

Lemma split_lines_nonempty (s : string) : Str.split_lines s <> [].
Proof.
  destruct s as [|c s]; simpl; [discriminate|].
  destruct (Ascii.eqb c Str.newline); [discriminate|].
  destruct (Str.split_lines s); discriminate.
Qed.

Lemma join_lines_app (g h : list string) :
  join_lines (g ++ h) = join_lines g ++ join_lines h.
Proof.
  unfold join_lines, Str.concat_all.
  induction g as [|l g IH]; [reflexivity|].
  cbn [app map fold_right]. rewrite IH. now rewrite !append_assoc.
Qed.

Lemma join_lines_one (line : string) : join_lines [line] = line ++ Str.nl.
Proof.
  unfold join_lines, Str.concat_all. cbn [map fold_right].
  apply append_empty_r.
Qed.

Lemma join_lines_cons (line : string) (g : list string) :
  join_lines (line :: g) = (line ++ Str.nl) ++ join_lines g.
Proof. reflexivity. Qed.

Lemma join_lines_empty (g : list string) : join_lines g = "" -> g = [].
Proof.
  destruct g as [|l g]; [reflexivity|].
  rewrite join_lines_cons. intros H. apply (f_equal Str.len) in H.
  rewrite !len_append, len_nl in H. change (Str.len "") with 0 in H.
  pose proof (len_nonneg l). pose proof (len_nonneg (join_lines g)). lia.
Qed.

(** Splitting on newlines and closing every line again gives the input
    followed by one more newline. *)
Lemma join_split_lines (s : string) :
  join_lines (Str.split_lines s) = s ++ Str.nl.
Proof.
  induction s as [|c s IH]; [reflexivity|].
  simpl Str.split_lines. destruct (Ascii.eqb c Str.newline) eqn:E.
  - apply Ascii.eqb_eq in E. subst c. rewrite join_lines_cons, IH.
    reflexivity.
  - destruct (Str.split_lines s) as [|l ls] eqn:Hs.
    + now apply split_lines_nonempty in Hs.
    + rewrite join_lines_cons in *. simpl. now rewrite <- IH.
Qed.

Lemma concat_all_join (groups : list (list string)) :
  Str.concat_all (map join_lines groups) = join_lines (List.concat groups).
Proof.
  induction groups as [|g groups IH]; [reflexivity|].
  simpl. rewrite join_lines_app. now rewrite <- IH.
Qed.

(** The loop keeps whole lines together: its pages are groups of
    consecutive lines. *)
Lemma split_pages_groups (lines : list string) :
  forall (gs : list (list string)) (g : list string),
    Forall (fun h => h <> []) gs ->
    exists gs' g',
      split_pages lines (map join_lines gs) (join_lines g) =
        (map join_lines gs', join_lines g') /\
      (List.concat gs' ++ g' = List.concat gs ++ g ++ lines)%list /\
      Forall (fun h => h <> []) gs'.
Proof.
  induction lines as [|line rest IH]; intros gs g Hgs.
  - exists gs, g. simpl. rewrite app_nil_r. auto.
  - simpl split_pages.
    assert (Hcur : join_lines g ++ line ++ Str.nl = join_lines (g ++ [line]))
      by now rewrite join_lines_app, join_lines_one.
    rewrite Hcur.
    destruct (5000 <? Str.len (join_lines (g ++ [line]))).
    + destruct (IH (gs ++ [g ++ [line]])%list []) as (gs' & g' & Heq & Hcat & Hne).
      { apply Forall_app. split; [exact Hgs|]. constructor; [|constructor].
        destruct g; discriminate. }
      exists gs', g'. rewrite map_app in Heq. simpl in Heq.
      split; [exact Heq|]. split; [|exact Hne].
      rewrite Hcat, concat_app. simpl. rewrite app_nil_r.
      now rewrite <- !app_assoc.
    + destruct (IH gs (g ++ [line])%list Hgs) as (gs' & g' & Heq & Hcat & Hne).
      exists gs', g'. split; [exact Heq|]. split; [|exact Hne].
      rewrite Hcat. now rewrite <- !app_assoc.
Qed.

Lemma paginate_groups (content : string) :
  exists groups : list (list string),
    List.concat groups = Str.split_lines content /\
    Forall (fun g => g <> []) groups /\
    paginate content = map join_lines groups.
Proof.
  unfold paginate. cbv zeta.
  destruct (split_pages_groups (Str.split_lines content) [] [])
    as (gs & g & Heq & Hcat & Hne); [constructor|].
  simpl in Heq, Hcat. change (join_lines []) with "" in Heq.
  rewrite Heq. unfold finish_pages.
  destruct (Str.truthy (join_lines g)) eqn:Ht.
  - exists (gs ++ [g])%list. split; [|split].
    + rewrite concat_app. simpl. now rewrite app_nil_r.
    + apply Forall_app. split; [exact Hne|]. constructor; [|constructor].
      intros ->. discriminate.
    + now rewrite map_app.
  - exists gs. split; [|split; [exact Hne | reflexivity]].
    assert (g = []) as ->.
    { apply join_lines_empty. destruct (join_lines g); [reflexivity|discriminate]. }
    now rewrite app_nil_r in Hcat.
Qed.

(** All pages put end to end are the input and one newline more. *)
Lemma paginate_concat (content : string) :
  Str.concat_all (paginate content) = content ++ Str.nl.
Proof.
  destruct (paginate_groups content) as (groups & Hcat & _ & Hp).
  rewrite Hp, concat_all_join, Hcat. apply join_split_lines.
Qed.

(** The loop never takes a page back, and a page under way is not lost. *)
Lemma split_pages_keeps (lines : list string) :
  forall pages current_page,
    (List.length pages + (if Str.truthy current_page then 1 else 0)
     <= List.length (finish_pages (split_pages lines pages current_page)))%nat.
Proof.
  induction lines as [|line rest IH]; intros pages cur.
  - simpl. destruct (Str.truthy cur); [rewrite length_app; simpl|]; lia.
  - simpl split_pages.
    assert (Ht : Str.truthy (cur ++ line ++ Str.nl) = true).
    { rewrite truthy_len. apply Z.ltb_lt. rewrite !len_append, len_nl.
      pose proof (len_nonneg cur). pose proof (len_nonneg line). lia. }
    destruct (5000 <? Str.len (cur ++ line ++ Str.nl)).
    + specialize (IH (pages ++ [(cur ++ line ++ Str.nl)%string])%list "").
      rewrite length_app in IH. simpl in IH.
      destruct (Str.truthy cur); lia.
    + specialize (IH pages (cur ++ line ++ Str.nl)). rewrite Ht in IH.
      destruct (Str.truthy cur); lia.
Qed.

Lemma split_pages_progress (lines : list string) pages current_page :
  lines <> [] ->
  (List.length pages + 1
   <= List.length (finish_pages (split_pages lines pages current_page)))%nat.
Proof.
  destruct lines as [|line rest]; [congruence|]. intros _.
  simpl split_pages.
  assert (Ht : Str.truthy (current_page ++ line ++ Str.nl) = true).
  { rewrite truthy_len. apply Z.ltb_lt. rewrite !len_append, len_nl.
    pose proof (len_nonneg current_page). pose proof (len_nonneg line). lia. }
  destruct (5000 <? Str.len (current_page ++ line ++ Str.nl)).
  - pose proof (split_pages_keeps rest
                  (pages ++ [(current_page ++ line ++ Str.nl)%string])%list "") as H.
    rewrite length_app in H. simpl in H. lia.
  - pose proof (split_pages_keeps rest pages
                  (current_page ++ line ++ Str.nl)) as H.
    rewrite Ht in H. lia.
Qed.

(** When the lines before the last one overflow a page, a page is completed
    before the last line is reached, and the last line starts another. *)
Lemma split_pages_two (lines : list string) :
  forall pages current_page,
    Str.len current_page <= 5000 ->
    5000 < Str.len current_page + Str.len (join_lines (removelast lines)) ->
    (List.length pages + 2
     <= List.length (finish_pages (split_pages lines pages current_page)))%nat.
Proof.
  induction lines as [|line rest IH]; intros pages cur Hcur Hover.
  - simpl in Hover. change (Str.len (join_lines [])) with 0 in Hover. lia.
  - destruct rest as [|line' rest'].
    + simpl in Hover. change (Str.len (join_lines [])) with 0 in Hover. lia.
    + change (removelast (line :: line' :: rest'))
        with (line :: removelast (line' :: rest')) in Hover.
      rewrite join_lines_cons, len_append in Hover.
      change (split_pages (line :: line' :: rest') pages cur)
        with (let current_page := cur ++ line ++ Str.nl in
              if 5000 <? Str.len current_page
              then split_pages (line' :: rest') (pages ++ [current_page]) ""
              else split_pages (line' :: rest') pages current_page).
      cbv zeta.
      destruct (5000 <? Str.len (cur ++ line ++ Str.nl)) eqn:E.
      * pose proof (split_pages_progress (line' :: rest')
                      (pages ++ [(cur ++ line ++ Str.nl)%string])%list "") as H.
        rewrite length_app in H. cbn [List.length] in H.
        assert (Hrest : line' :: rest' <> []) by discriminate.
        specialize (H Hrest). lia.
      * apply Z.ltb_ge in E.
        apply IH; [exact E|]. rewrite len_append. lia.
Qed.

(** Input that fits a page with its closing newline is one page. *)
Lemma split_pages_fits (lines : list string) :
  forall pages current_page,
    Str.len current_page + Str.len (join_lines lines) <= 5000 ->
    split_pages lines pages current_page =
    (pages, current_page ++ join_lines lines).
Proof.
  induction lines as [|line rest IH]; intros pages cur Hfit.
  - simpl. change (join_lines []) with "". now rewrite append_empty_r.
  - simpl split_pages. rewrite join_lines_cons, len_append in Hfit.
    pose proof (len_nonneg (join_lines rest)).
    destruct (5000 <? Str.len (cur ++ line ++ Str.nl)) eqn:E.
    + apply Z.ltb_lt in E. rewrite len_append in E. lia.
    + rewrite IH.
      * rewrite join_lines_cons. now rewrite !append_assoc.
      * rewrite len_append. lia.
Qed.

(* ------------------------------------------------------------------ *)
(** ** The content resolver *)

Lemma prefix_append (p q s : string) :
  prefix (p ++ q) s = true -> prefix p s = true.
Proof.
  revert s. induction p as [|a p IH]; intros s H.
  - destruct s; reflexivity.
  - destruct s as [|b s]; simpl in *; [discriminate|].
    destruct (ascii_dec a b); [now apply IH | discriminate].
Qed.

(** A string that starts with "https" or with "http://" starts with
    "http", so line 60 tests the prefix "http" alone. *)
Lemma as_url_str (content : string) :
  as_url (VStr content) =
  if Str.startswith content "http" then Some content else None.
Proof.
  unfold as_url, Str.startswith.
  destruct (prefix "http" content) eqn:E; [reflexivity|].
  destruct (prefix "https" content) eqn:E'; [|reflexivity].
  apply (prefix_append "http" "s") in E'. congruence.
Qed.

Lemma len_content_str (content : string) :
  exists n,
    (if Py.truthy (VStr content) then Py.len (VStr content) else Ok 0) = Ok n.
Proof. simpl. destruct (Str.truthy content); eauto. Qed.

(** C2.  A str content is classified in this order: one that starts with
    "http" (so also with "http://" or "https") goes to the URL fetch,
    whatever the base64 decoder would make of it; otherwise one that
    decodes goes, decoded, to process_pdf; otherwise it is paginated as raw
    text.  The decoder is any decoder that accepts the empty string. *)
Theorem content_classification (content : string) (record_id : pyvalue) :
  b64decode_str "" = Ok [] ->
  process_skillset_content (VStr content) record_id
    = dispatch (classify content) /\
  (Str.startswith content "http" = true \/
   Str.startswith content "http://" = true \/
   Str.startswith content "https" = true ->
   classify content = Url content /\
   exists later,
     calls (process_skillset_content (VStr content) record_id)
       = RequestsGet content 30 :: later) /\
  (Str.startswith content "http" = false ->
   forall pdf_bytes, b64decode_str content = Ok pdf_bytes ->
     classify content = Base64Binary pdf_bytes) /\
  (Str.startswith content "http" = false ->
   forall e, b64decode_str content = Raise e ->
     classify content = RawText content).
Proof.
  intros Hempty.
  assert (Hrun : process_skillset_content (VStr content) record_id
                 = dispatch (classify content)).
  { unfold process_skillset_content.
    destruct (len_content_str content) as [n ->].
    rewrite as_url_str. unfold classify.
    destruct (Str.startswith content "http"); [reflexivity|].
    cbn [b64decode]. destruct (b64decode_str content) eqn:Hdec;
      [reflexivity|].
    cbn [dispatch raw_text Py.truthy].
    destruct content as [|c content]; [congruence | reflexivity]. }
  split; [exact Hrun|]. split; [|split].
  - intros Hurl.
    assert (Hhttp : Str.startswith content "http" = true).
    { destruct Hurl as [H|[H|H]]; [exact H| |].
      - apply (prefix_append "http" "://"). exact H.
      - apply (prefix_append "http" "s"). exact H. }
    assert (Hc : classify content = Url content)
      by (unfold classify; now rewrite Hhttp).
    split; [exact Hc|]. rewrite Hrun, Hc. cbn [dispatch].
    unfold fetch_url. rewrite bind_eq. unfold calls, emit. cbn [snd app].
    eauto.
  - intros Hhttp pdf_bytes Hdec. unfold classify. now rewrite Hhttp, Hdec.
  - intros Hhttp e Hdec. unfold classify. now rewrite Hhttp, Hdec.
Qed.

(** Content that is not a str and that Python counts as false, and every
    list and dict, does get the error of the raw-text guard. *)
Lemma invalid_content_rejected (content record_id : pyvalue) :
  Py.is_str content = false ->
  (Py.truthy content = false \/
   (exists xs, content = VList xs) \/ (exists items, content = VDict items)) ->
  process_skillset_content content record_id =
  ((None, Some "Invalid or empty content"), []).
Proof.
  intros Hstr Hkind. unfold process_skillset_content.
  destruct content as [| b | n | x | s | xs | items];
    try discriminate Hstr;
    destruct Hkind as [Hf | [[ys Hl] | [ys Hd]]];
    try discriminate; cbn [Py.truthy] in *; try rewrite Hf;
    try reflexivity;
    try (destruct xs; reflexivity); try (destruct items; reflexivity).
Qed.

(** C6.  What the resolver does with the empty string and with a number as
    content: neither gets the error "Invalid or empty content".  The empty
    string decodes as base64 to no bytes, which process_pdf rejects as too
    small; a non-zero number has no length, which line 57 asks for. *)
Theorem empty_or_unsized_content_outcome (record_id : pyvalue) :
  b64decode_str "" = Ok [] ->
  process_skillset_content (VStr "") record_id =
    ((None, Some "PDF data too small to be valid"), []) /\
  process_skillset_content (VInt 5) record_id =
    ((None, Some "Error processing content: object of type 'int' has no len()"),
     []).
Proof.
  intros Hempty. split; [|reflexivity].
  unfold process_skillset_content. cbn [Py.truthy Str.truthy].
  rewrite as_url_str. cbn [Str.startswith prefix b64decode].
  rewrite Hempty. reflexivity.
Qed.

(* ------------------------------------------------------------------ *)
(** ** Raw text through the resolver *)

(** The paginator is reached by a non-empty string that does not start
    with "http" and that the base64 decoder rejects. *)
Lemma resolver_raw_text (content : string) (record_id : pyvalue) (e : exn) :
  content <> "" ->
  Str.startswith content "http" = false ->
  b64decode_str content = Raise e ->
  process_skillset_content (VStr content) record_id =
  ((Some (paginate content), None), []).
Proof.
  intros Hne Hhttp Hdec. unfold process_skillset_content.
  destruct (len_content_str content) as [n ->].
  rewrite as_url_str, Hhttp. cbn [b64decode]. rewrite Hdec.
  cbn [raw_text Py.truthy].
  destruct content as [|c content]; [congruence | reflexivity].
Qed.

Lemma terminated_chars_empty : terminated_chars "" = 0.
Proof. reflexivity. Qed.

(** C4 (amended).  For content that reaches the raw-text paginator, a
    string that does not start with "http" and that the base64 decoder
    rejects, such as "ab\n" repeated 2001 times, and whose
    newline-terminated lines total more than 5,000 characters, the
    resolver returns at least 2 pages and no error, without an external
    call; every page is a run of whole input lines, each closed by a
    newline; and the pages put end to end are the input followed by one
    more newline. *)
Theorem raw_text_content_pagination (content : string)
    (record_id : pyvalue) (e : exn) :
  Str.startswith content "http" = false ->
  b64decode_str content = Raise e ->
  5000 < terminated_chars content ->
  exists pages,
    process_skillset_content (VStr content) record_id
      = ((Some pages, None), []) /\
    (2 <= List.length pages)%nat /\
    (exists groups : list (list string),
       List.concat groups = Str.split_lines content /\
       Forall (fun g => g <> []) groups /\
       pages = map join_lines groups) /\
    Str.concat_all pages = content ++ Str.nl.
Proof.
  intros Hhttp Hdec Hover.
  assert (Hne : content <> "").
  { intros ->. rewrite terminated_chars_empty in Hover. lia. }
  exists (paginate content).
  split; [now apply resolver_raw_text with e|]. split; [|split].
  - unfold paginate. cbv zeta.
    apply (split_pages_two (Str.split_lines content) [] "");
      [discriminate | exact Hover].
  - apply paginate_groups.
  - apply paginate_concat.
Qed.

(** C7 (amended).  Every non-empty string that reaches the raw-text
    paginator, one that does not start with "http" and that the base64
    decoder rejects, whitespace or not, is paginated without error and
    without an external call into at least one page, and into exactly one
    page, the input and a newline, when it is shorter than 5,000
    characters.  The empty string is never paginated: it goes to
    process_pdf as whatever bytes the decoder makes of it, and to the error
    "Invalid or empty content" should the decoder reject it. *)
Theorem raw_text_content_at_least_one_page (content : string)
    (record_id : pyvalue) :
  process_skillset_content (VStr "") record_id =
    match b64decode_str "" with
    | Ok pdf_bytes => process_pdf pdf_bytes
    | Raise _ => ret (None, Some "Invalid or empty content")
    end /\
  (content <> "" ->
   Str.startswith content "http" = false ->
   (exists e, b64decode_str content = Raise e) ->
   process_skillset_content (VStr content) record_id
     = ((Some (paginate content), None), []) /\
   (1 <= List.length (paginate content))%nat /\
   (Str.len content < 5000 -> paginate content = [content ++ Str.nl])).
Proof.
  split.
  - unfold process_skillset_content. cbn [Py.truthy Str.truthy].
    rewrite as_url_str. cbn [Str.startswith prefix b64decode].
    destruct (b64decode_str ""); reflexivity.
  - intros Hne Hhttp [e Hdec].
    split; [now apply resolver_raw_text with e|]. split.
    + unfold paginate. cbv zeta.
      apply (split_pages_progress (Str.split_lines content) [] "").
      apply split_lines_nonempty.
    + intros Hshort. unfold paginate. cbv zeta.
      rewrite split_pages_fits.
      * rewrite join_split_lines. cbn [append]. unfold finish_pages.
        rewrite truthy_len, len_append, len_nl.
        pose proof (len_nonneg content).
        destruct (0 <? Str.len content + 1) eqn:E; [reflexivity|].
        apply Z.ltb_ge in E. lia.
      * rewrite join_split_lines, len_append, len_nl.
        change (Str.len "") with 0. lia.
Qed.

(* ------------------------------------------------------------------ *)
(** ** The HTTP trigger in pipeline mode *)

Lemma single_entry_error record_id message :
  single_entry (create_error_response record_id message).
Proof. eexists. reflexivity. Qed.

Lemma single_entry_general e : single_entry (general_error e).
Proof. eexists. reflexivity. Qed.

Lemma single_entry_answer record_id content :
  single_entry (value (answer_record record_id content)).
Proof.
  unfold answer_record. rewrite bind_eq. unfold value at 1. cbn [fst].
  destruct (value (process_skillset_content content record_id))
    as [pages error].
  destruct (Py.truthy_error error).
  - apply single_entry_error.
  - eexists. reflexivity.
Qed.

Ltac step_try :=
  match goal with
  | H : rbind ?r _ = Ok _ |- _ =>
      let E := fresh "E" in
      destruct r eqn:E; cbn [rbind] in H; [|discriminate H]
  | H : (if ?b then _ else _) = Ok _ |- _ =>
      let E := fresh "E" in destruct b eqn:E
  | H : Ok _ = Ok _ |- _ => injection H as <-
  end.

Lemma single_entry_skillset request_json answer :
  skillset request_json = Ok answer -> single_entry (value answer).
Proof.
  unfold skillset. intros H. repeat step_try;
    solve [apply single_entry_error | apply single_entry_answer
          | eexists; reflexivity].
Qed.

(** Whatever the request, a pipeline-mode response holds one entry. *)
Lemma pipeline_single_entry (req : HttpRequest) :
  Str.contains (req_content_type req) "application/json" = true ->
  single_entry (value (split_pdf req)).
Proof.
  intros Hct. unfold split_pdf. cbv zeta. rewrite Hct.
  destruct (req_get_json req) as [request_json|e].
  - destruct (skillset request_json) as [answer|e] eqn:Hs.
    + now apply single_entry_skillset with request_json.
    + apply single_entry_general.
  - destruct (exn_cls e); try apply single_entry_general.
    eexists. reflexivity.
Qed.

(** The skillset branch looks at the "values" entry of a JSON object and,
    in a list found there, at its first element only. *)
Lemma skillset_first_record items items' record rest rest' :
  Py.lookup items "values" = Some (VList (record :: rest)) ->
  Py.lookup items' "values" = Some (VList (record :: rest')) ->
  skillset (VDict items) = skillset (VDict items').
Proof.
  intros H H'. unfold skillset, has_values.
  cbn [Py.contains Py.getitem rbind]. rewrite H, H'.
  cbn [Py.len Py.first rbind List.length].
  rewrite !Nat2Z.inj_succ.
  assert (Hpos : forall n : nat, (0 <? Z.succ (Z.of_nat n)) = true)
    by (intros n; apply Z.ltb_lt; lia).
  rewrite !Hpos. reflexivity.
Qed.

Lemma skillset_no_values items :
  Py.lookup items "values" = None \/
  Py.lookup items "values" = Some (VList []) ->
  skillset (VDict items) =
  Ok (ret (Response
             (json_dumps
                (error_envelope (VStr "0")
                   "Invalid request format: missing 'values' array"))
             "application/json" 400)).
Proof.
  intros [H|H]; unfold skillset, has_values;
    cbn [Py.contains Py.getitem rbind]; rewrite H; reflexivity.
Qed.

Lemma skillset_record items record rest :
  Py.lookup items "values" = Some (VList (VDict record :: rest)) ->
  skillset (VDict items) =
  match Py.lookup record "data" with
  | None =>
      Ok (ret (create_error_response (record_id_of record)
                 "No data field in request"))
  | Some data =>
      try! content <- Py.get data "content" (VStr "");
      if negb (Py.truthy content) then
        Ok (ret (create_error_response (record_id_of record)
                   "No content provided in request"))
      else Ok (answer_record (record_id_of record) content)
  end.
Proof.
  intros H. unfold skillset, has_values.
  cbn [Py.contains Py.getitem rbind]. rewrite H.
  cbn [Py.len Py.first rbind List.length Py.get Py.contains].
  rewrite Nat2Z.inj_succ.
  assert (Hpos : (0 <? Z.succ (Z.of_nat (List.length rest))) = true)
    by (apply Z.ltb_lt; lia).
  rewrite Hpos. fold (record_id_of record).
  destruct (Py.lookup record "data") as [data|] eqn:Hd;
    cbn [negb Py.getitem rbind]; rewrite ?Hd; reflexivity.
Qed.

(** C8 (amended).  In pipeline mode, malformed JSON and a missing or empty
    "values" array are answered with status 400 and the error envelope with
    record id "0".  A first record without a "data" field, or whose content
    is empty, is answered with the error envelope that carries the record's
    own id ("0" when it has none) under the default status 200. *)
Theorem pipeline_validation_failures (content_type : string) (body : bytes) :
  Str.contains content_type "application/json" = true ->
  (forall e, exn_cls e = ValueError ->
     split_pdf (Request content_type (Raise e) body) =
     ret (Response
            (json_dumps (error_envelope (VStr "0") "Invalid JSON in request"))
            "application/json" 400)) /\
  (forall items,
     Py.lookup items "values" = None \/
     Py.lookup items "values" = Some (VList []) ->
     split_pdf (Request content_type (Ok (VDict items)) body) =
     ret (Response
            (json_dumps
               (error_envelope (VStr "0")
                  "Invalid request format: missing 'values' array"))
            "application/json" 400)) /\
  (forall items record rest,
     Py.lookup items "values" = Some (VList (VDict record :: rest)) ->
     Py.lookup record "data" = None ->
     split_pdf (Request content_type (Ok (VDict items)) body) =
     ret (Response
            (json_dumps
               (error_envelope (record_id_of record)
                  "No data field in request"))
            "application/json" 200)) /\
  (forall items record rest data,
     Py.lookup items "values" = Some (VList (VDict record :: rest)) ->
     Py.lookup record "data" = Some (VDict data) ->
     Py.truthy (content_of data) = false ->
     split_pdf (Request content_type (Ok (VDict items)) body) =
     ret (Response
            (json_dumps
               (error_envelope (record_id_of record)
                  "No content provided in request"))
            "application/json" 200)).
Proof.
  intros Hct. unfold split_pdf. cbn [req_content_type req_get_json].
  rewrite Hct. repeat split.
  - intros e He. now rewrite He.
  - intros items H. now rewrite (skillset_no_values items H).
  - intros items record rest Hv Hd.
    rewrite (skillset_record items record rest Hv), Hd. reflexivity.
  - intros items record rest data Hv Hd Hc.
    rewrite (skillset_record items record rest Hv), Hd.
    cbn [Py.get rbind]. fold (content_of data). rewrite Hc. reflexivity.
Qed.

(** C10.  When the "values" array holds two or more records, the response,
    and the external calls made for it, are those of the request that holds
    the first record alone; and the "values" array of the response holds
    exactly one element. *)
Theorem pipeline_first_record_only (content_type : string)
    (body body' : bytes) (items items' : list (string * pyvalue))
    (record second : pyvalue) (more : list pyvalue) :
  Str.contains content_type "application/json" = true ->
  Py.lookup items "values" = Some (VList (record :: second :: more)) ->
  Py.lookup items' "values" = Some (VList [record]) ->
  split_pdf (Request content_type (Ok (VDict items)) body) =
  split_pdf (Request content_type (Ok (VDict items')) body') /\
  exists entry,
    resp_body (value (split_pdf (Request content_type (Ok (VDict items)) body)))
    = json_dumps (VDict [("values", VList [entry])]).
Proof.
  intros Hct Hv Hv'. split.
  - unfold split_pdf. cbn [req_content_type req_get_json]. rewrite Hct.
    now rewrite (skillset_first_record items items' record
                   (second :: more) [] Hv Hv').
  - apply (pipeline_single_entry
             (Request content_type (Ok (VDict items)) body)).
    exact Hct.
Qed.

(* ------------------------------------------------------------------ *)
(** ** More on the PDF text extractor *)

(** The three ways process_pdf can go. *)
Lemma process_pdf_cases (pdf_bytes : bytes) :
  (blen pdf_bytes < 100 /\
   process_pdf pdf_bytes =
   ((None, Some "PDF data too small to be valid"), [])) \/
  (100 <= blen pdf_bytes /\
   exists e, fitz_open pdf_bytes = Raise e /\
     process_pdf pdf_bytes =
     ((None, Some ("Cannot open PDF document: " ++ exn_str e)),
      [FitzOpen pdf_bytes])) \/
  (100 <= blen pdf_bytes /\
   exists doc, fitz_open pdf_bytes = Ok doc /\
     process_pdf pdf_bytes =
     ((Some (map (page_entry doc) (seq 0 (Nat.min (doc_len doc) 300))), None),
      FitzOpen pdf_bytes :: map LoadPage (seq 0 (Nat.min (doc_len doc) 300)))).
Proof.
  destruct (Z.lt_ge_cases (blen pdf_bytes) 100) as [Hsmall|Hlen].
  - left. split; [exact Hsmall|]. unfold process_pdf.
    destruct (blen pdf_bytes <? 100) eqn:E; [reflexivity|].
    apply Z.ltb_ge in E. lia.
  - right. destruct (fitz_open pdf_bytes) as [doc|e] eqn:Hopen.
    + right. split; [exact Hlen|]. exists doc. split; [reflexivity|].
      now apply process_pdf_opened.
    + left. split; [exact Hlen|]. exists e. split; [reflexivity|].
      unfold process_pdf.
      destruct (blen pdf_bytes <? 100) eqn:E;
        [apply Z.ltb_lt in E; lia|].
      rewrite Hopen, bind_eq. reflexivity.
Qed.

Lemma process_pdf_well_formed (pdf_bytes : bytes) :
  well_formed (value (process_pdf pdf_bytes)).
Proof.
  destruct (process_pdf_cases pdf_bytes)
    as [[_ ->] | [[_ (e & _ & ->)] | [_ (doc & _ & ->)]]];
    unfold value; cbn [fst].
  - right. eexists. split; reflexivity.
  - right. eexists. split; reflexivity.
  - left. eauto.
Qed.

(** X1.  process_pdf returns the error "PDF data too small to be valid"
    exactly when the input is shorter than 100 bytes.  When an input of at
    least 100 bytes cannot be opened, it returns no pages and the error
    "Cannot open PDF document: <reason>", and the open is its only external
    call: no page is loaded.  Conversely that error is only ever returned
    for an input of at least 100 bytes on which the open raised that
    reason. *)
Theorem process_pdf_error_messages (pdf_bytes : bytes) :
  (value (process_pdf pdf_bytes)
   = (None, Some "PDF data too small to be valid")
   <-> blen pdf_bytes < 100) /\
  (forall e, 100 <= blen pdf_bytes -> fitz_open pdf_bytes = Raise e ->
     process_pdf pdf_bytes =
     ((None, Some ("Cannot open PDF document: " ++ exn_str e)),
      [FitzOpen pdf_bytes])) /\
  (forall reason,
     value (process_pdf pdf_bytes)
     = (None, Some ("Cannot open PDF document: " ++ reason)) ->
     100 <= blen pdf_bytes /\
     exists e, fitz_open pdf_bytes = Raise e /\ exn_str e = reason).
Proof.
  destruct (process_pdf_cases pdf_bytes)
    as [[Hs Hrun] | [[Hl (e & Hopen & Hrun)] | [Hl (doc & Hopen & Hrun)]]];
    rewrite Hrun; unfold value; cbn [fst]; split; [|split| |split| |split].
  - split; [intros _; exact Hs | reflexivity].
  - intros e' Hl. lia.
  - intros reason H. discriminate H.
  - split; [intros H; discriminate H | lia].
  - intros e' _ He'. rewrite Hopen in He'. now injection He' as ->.
  - intros reason H. split; [exact Hl|]. exists e. split; [exact Hopen|].
    now injection H.
  - split; [intros H; discriminate H | lia].
  - intros e' _ He'. rewrite Hopen in He'. discriminate He'.
  - intros reason H. discriminate H.
Qed.

Lemma limit_text_len (text : string) :
  Str.len (limit_text text) <= 100023 /\
  (100000 < Str.len text -> Str.len (limit_text text) = 100023).
Proof.
  destruct (Z.lt_ge_cases 100000 (Str.len text)) as [Hlong|Hshort].
  - rewrite (limit_text_long _ Hlong), len_append, slice_to_len by lia.
    change (Str.len "... [content truncated]") with 23. lia.
  - rewrite limit_text_short by lia. lia.
Qed.

(** X2.  A page whose text was extracted is returned in at most 100,023
    characters: 100,000 of text and the 23 of the marker; in exactly that
    many when the text was longer than 100,000. *)
Theorem extracted_page_length (pdf_bytes : bytes) (doc : document)
    (k : nat) (text : string) :
  100 <= blen pdf_bytes ->
  fitz_open pdf_bytes = Ok doc ->
  (k < Nat.min (doc_len doc) 300)%nat ->
  doc_page_text doc k = Ok text ->
  exists pages page,
    value (process_pdf pdf_bytes) = (Some pages, None) /\
    nth_error pages k = Some page /\
    Str.len page <= 100023 /\
    (100000 < Str.len text -> Str.len page = 100023).
Proof.
  intros Hlen Hopen Hk Htext.
  exists (map (page_entry doc) (seq 0 (Nat.min (doc_len doc) 300))),
    (limit_text text).
  rewrite (process_pdf_opened _ _ Hlen Hopen). unfold value. cbn [fst].
  rewrite (nth_error_entries _ _ _ Hk). unfold page_entry. rewrite Htext.
  split; [reflexivity|]. split; [reflexivity|]. apply limit_text_len.
Qed.

(* ------------------------------------------------------------------ *)
(** ** More on the content resolver *)

Lemma fetch_url_cases (url : string) :
  (exists e, requests_get url = Raise e /\
     fetch_url url =
     ((None, Some ("Error downloading from URL: " ++ exn_str e)),
      [RequestsGet url 30])) \/
  (exists response, requests_get url = Ok response /\
     status_code response <> 200 /\
     fetch_url url =
     ((None, Some ("Failed to download from URL: status code "
                   ++ Str.of_int (status_code response))),
      [RequestsGet url 30])) \/
  (exists response, requests_get url = Ok response /\
     status_code response = 200 /\
     fetch_url url =
     (value (process_pdf (reply_content response)),
      RequestsGet url 30 :: calls (process_pdf (reply_content response)))).
Proof.
  unfold fetch_url. rewrite bind_eq.
  destruct (requests_get url) as [response|e].
  - right. destruct (status_code response =? 200) eqn:E.
    + right. exists response. apply Z.eqb_eq in E.
      split; [reflexivity|]. split; [exact E|]. reflexivity.
    + left. exists response. apply Z.eqb_neq in E.
      split; [reflexivity|]. split; [exact E|]. reflexivity.
  - left. exists e. split; reflexivity.
Qed.

(** The ways process_skillset_content can go, by the kind of content. *)
Lemma resolver_cases (content record_id : pyvalue) :
  (exists e,
     process_skillset_content content record_id =
     ((None, Some ("Error processing content: " ++ exn_str e)), [])) \/
  (exists url, content = VStr url /\ Str.startswith url "http" = true /\
     process_skillset_content content record_id = fetch_url url) \/
  (exists pdf_bytes,
     process_skillset_content content record_id = process_pdf pdf_bytes) \/
  process_skillset_content content record_id = (raw_text content, []).
Proof.
  unfold process_skillset_content.
  destruct (if Py.truthy content then Py.len content else Ok 0) as [n|e].
  - right. destruct (as_url content) as [url|] eqn:Hurl.
    + left. exists url. destruct content; try discriminate Hurl.
      rewrite as_url_str in Hurl.
      destruct (Str.startswith s "http") eqn:E; [|discriminate Hurl].
      injection Hurl as <-. repeat split. exact E.
    + right. destruct (b64decode content) as [pdf_bytes|e].
      * left. eauto.
      * right. reflexivity.
  - left. exists e. reflexivity.
Qed.

Lemma raw_text_well_formed (content : pyvalue) : well_formed (raw_text content).
Proof.
  unfold raw_text.
  destruct content; try (right; eexists; split; reflexivity).
  destruct (Py.truthy (VStr s)).
  - left. eauto.
  - right. eexists. split; reflexivity.
Qed.

Lemma resolver_well_formed (content record_id : pyvalue) :
  well_formed (value (process_skillset_content content record_id)).
Proof.
  destruct (resolver_cases content record_id)
    as [(e & ->) | [(url & _ & _ & ->) | [(pdf_bytes & ->) | ->]]].
  - right. eexists. split; reflexivity.
  - destruct (fetch_url_cases url)
      as [(e & _ & ->) | [(r & _ & _ & ->) | (r & _ & _ & ->)]].
    + right. eexists. split; reflexivity.
    + right. eexists. split; reflexivity.
    + apply process_pdf_well_formed.
  - apply process_pdf_well_formed.
  - apply raw_text_well_formed.
Qed.

(** X3.  Whatever the content, a JSON value of any type, and whatever the
    PDF library, the HTTP client and the base64 decoder do,
    process_skillset_content returns pages and no error, or no pages and a
    non-empty error. *)
Theorem resolver_outcome_well_formed (content record_id : pyvalue) :
  (exists pages,
     value (process_skillset_content content record_id)
     = (Some pages, None)) \/
  (exists message,
     value (process_skillset_content content record_id)
     = (None, Some message) /\ Str.truthy message = true).
Proof. exact (resolver_well_formed content record_id). Qed.

(** X4.  For content that starts with "http": when the request raises, the
    error is "Error downloading from URL: <reason>"; when the status is not
    200, it is "Failed to download from URL: status code <code>"; in both
    cases the request is the only external call, so nothing is handed to the
    PDF library.  With status 200 the outcome is that of process_pdf on the
    body received, and the calls are the request followed by those of
    process_pdf. *)
Theorem url_content_outcomes (url : string) (record_id : pyvalue) :
  Str.startswith url "http" = true ->
  (forall e, requests_get url = Raise e ->
     process_skillset_content (VStr url) record_id =
     ((None, Some ("Error downloading from URL: " ++ exn_str e)),
      [RequestsGet url 30])) /\
  (forall response, requests_get url = Ok response ->
     status_code response <> 200 ->
     process_skillset_content (VStr url) record_id =
     ((None, Some ("Failed to download from URL: status code "
                   ++ Str.of_int (status_code response))),
      [RequestsGet url 30])) /\
  (forall response, requests_get url = Ok response ->
     status_code response = 200 ->
     process_skillset_content (VStr url) record_id =
     (value (process_pdf (reply_content response)),
      RequestsGet url 30 :: calls (process_pdf (reply_content response)))).
Proof.
  intros Hhttp.
  assert (Hrun : process_skillset_content (VStr url) record_id = fetch_url url).
  { unfold process_skillset_content.
    destruct (len_content_str url) as [n ->].
    rewrite as_url_str, Hhttp. reflexivity. }
  rewrite Hrun.
  destruct (fetch_url_cases url)
    as [(e & Hget & ->) | [(r & Hget & Hst & ->) | (r & Hget & Hst & ->)]];
    repeat split; intros x Hx; rewrite Hget in Hx;
    try discriminate Hx; injection Hx as <-;
    try reflexivity; intros; congruence.
Qed.

(* ------------------------------------------------------------------ *)
(** ** More on the raw-text paginator *)

Lemma split_pages_app (first rest : list string) :
  forall pages current_page,
    split_pages (first ++ rest) pages current_page =
    split_pages rest (fst (split_pages first pages current_page))
      (snd (split_pages first pages current_page)).
Proof.
  induction first as [|line first IH]; intros pages cur; [reflexivity|].
  cbn [app split_pages].
  destruct (5000 <? Str.len (cur ++ line ++ Str.nl)); apply IH.
Qed.

Lemma Forall_removelast {A} (P : A -> Prop) (l : list A) :
  Forall P l -> Forall P (removelast l).
Proof.
  induction 1 as [|x l Hx Hl IH]; [constructor|].
  destruct l as [|y l]; [constructor|].
  change (removelast (x :: y :: l)) with (x :: removelast (y :: l)).
  constructor; assumption.
Qed.

(** What the loop keeps true: a completed page is longer than 5,000
    characters and was not before its last line; the page under way is at
    most 5,000 characters long. *)
Lemma split_pages_sizes (all lines : list string) :
  (forall line, In line lines -> In line all) ->
  forall pages current_page,
    Forall (fun page => 5000 < Str.len page /\ one_line_over all page) pages ->
    Str.len current_page <= 5000 ->
    current_page = "" \/ one_line_over all current_page ->
    Forall (fun page => 5000 < Str.len page /\ one_line_over all page)
      (fst (split_pages lines pages current_page)) /\
    Str.len (snd (split_pages lines pages current_page)) <= 5000 /\
    (snd (split_pages lines pages current_page) = "" \/
     one_line_over all (snd (split_pages lines pages current_page))).
Proof.
  induction lines as [|line rest IH]; intros Hin pages cur Hpages Hcur Hover.
  - cbn. auto.
  - cbn [split_pages].
    assert (Hnew : one_line_over all (cur ++ line ++ Str.nl)).
    { exists cur, line. repeat split; [|exact Hcur].
      apply Hin. now left. }
    assert (Hrest : forall l, In l rest -> In l all)
      by (intros l Hl; apply Hin; now right).
    destruct (5000 <? Str.len (cur ++ line ++ Str.nl)) eqn:E.
    + apply Z.ltb_lt in E. apply (IH Hrest).
      * apply Forall_app. split; [exact Hpages|].
        constructor; [split; assumption | constructor].
      * change (Str.len "") with 0. lia.
      * now left.
    + apply Z.ltb_ge in E. apply (IH Hrest); auto.
Qed.

Lemma paginate_sizes (content : string) :
  Forall (fun page => 0 < Str.len page) (paginate content) /\
  Forall (fun page => 5000 < Str.len page) (removelast (paginate content)) /\
  Forall (one_line_over (Str.split_lines content)) (paginate content).
Proof.
  unfold paginate. cbv zeta.
  destruct (split_pages_sizes (Str.split_lines content)
              (Str.split_lines content) (fun _ H => H) [] "")
    as (Hpages & Hcur & Hover).
  { constructor. }
  { change (Str.len "") with 0. lia. }
  { now left. }
  destruct (split_pages (Str.split_lines content) [] "") as [pages cur].
  cbn [fst snd] in *. unfold finish_pages.
  assert (Hlong : Forall (fun page => 5000 < Str.len page) pages)
    by (eapply Forall_impl; [|exact Hpages]; cbn; intros p [H _]; exact H).
  assert (Hline : Forall (one_line_over (Str.split_lines content)) pages)
    by (eapply Forall_impl; [|exact Hpages]; cbn; intros p [_ H]; exact H).
  assert (Hpos : Forall (fun page => 0 < Str.len page) pages)
    by (eapply Forall_impl; [|exact Hlong]; cbn; intros p H; lia).
  destruct (Str.truthy cur) eqn:Ht.
  - rewrite removelast_last. split; [|split].
    + apply Forall_app. split; [exact Hpos|]. constructor; [|constructor].
      rewrite truthy_len in Ht. now apply Z.ltb_lt in Ht.
    + exact Hlong.
    + apply Forall_app. split; [exact Hline|]. constructor; [|constructor].
      destruct Hover as [-> | H]; [discriminate Ht | exact H].
  - split; [exact Hpos|]. split; [|exact Hline].
    now apply Forall_removelast.
Qed.

(** X6.  No page is empty; every page but the last is longer than 5,000
    characters; and every page was at most 5,000 characters long before the
    last of its lines was added, so a page is over the target by less than
    one input line and its newline. *)
Theorem paginate_page_sizes (content : string) :
  Forall (fun page => 0 < Str.len page) (paginate content) /\
  Forall (fun page => 5000 < Str.len page) (removelast (paginate content)) /\
  Forall (fun page =>
            exists head line,
              In line (Str.split_lines content) /\
              page = head ++ line ++ Str.nl /\ Str.len head <= 5000)
    (paginate content).
Proof. exact (paginate_sizes content). Qed.

Lemma paginate_one_page (content : string) :
  terminated_chars content <= 5000 -> paginate content = [content ++ Str.nl].
Proof.
  unfold terminated_chars, paginate. cbv zeta. intros Hfit.
  pose proof (join_split_lines content) as Hjoin.
  pose proof (@app_removelast_last _ (Str.split_lines content) ""
                (split_lines_nonempty content)) as Hlines.
  set (before := removelast (Str.split_lines content)) in *.
  set (final := last (Str.split_lines content) "") in *.
  rewrite Hlines in Hjoin |- *.
  rewrite split_pages_app, (split_pages_fits before [] "")
    by (change (Str.len "") with 0; lia).
  cbn [fst snd split_pages append].
  rewrite join_lines_app, join_lines_one in Hjoin. rewrite Hjoin.
  unfold finish_pages.
  destruct (5000 <? Str.len (content ++ Str.nl)); [reflexivity|].
  rewrite truthy_len, len_append, len_nl. pose proof (len_nonneg content).
  destruct (0 <? Str.len content + 1) eqn:E; [reflexivity|].
  apply Z.ltb_ge in E. lia.
Qed.

(** X7.  The paginator gives two pages or more exactly when the input's
    lines before the last one, newlines counted, total more than 5,000
    characters; otherwise, and only then, it gives the one page that is the
    input followed by a newline, however long the last line is. *)
Theorem paginate_page_count_threshold (content : string) :
  (5000 < terminated_chars content <->
   (2 <= List.length (paginate content))%nat) /\
  (terminated_chars content <= 5000 <->
   paginate content = [content ++ Str.nl]).
Proof.
  assert (Hmany : 5000 < terminated_chars content ->
                  (2 <= List.length (paginate content))%nat).
  { intros Hover. unfold paginate. cbv zeta.
    apply (split_pages_two (Str.split_lines content) [] "");
      [discriminate | exact Hover]. }
  split; split.
  - exact Hmany.
  - intros Htwo.
    destruct (Z.lt_ge_cases 5000 (terminated_chars content)) as [H|H];
      [exact H|].
    rewrite paginate_one_page in Htwo by lia. cbn in Htwo. lia.
  - intros H. now apply paginate_one_page.
  - intros Hone.
    destruct (Z.lt_ge_cases 5000 (terminated_chars content)) as [H|H];
      [|lia].
    apply Hmany in H. rewrite Hone in H. cbn in H. lia.
Qed.

Lemma concat_all_app (ps qs : list string) :
  Str.concat_all (ps ++ qs) = Str.concat_all ps ++ Str.concat_all qs.
Proof.
  unfold Str.concat_all. induction ps as [|p ps IH]; [reflexivity|].
  cbn [app fold_right]. rewrite IH. now rewrite append_assoc.
Qed.

Lemma concat_all_long (ps : list string) :
  Forall (fun page => 5000 < Str.len page) ps ->
  5001 * Z.of_nat (List.length ps) <= Str.len (Str.concat_all ps).
Proof.
  induction 1 as [|p ps Hp Hps IH].
  - cbn. lia.
  - change (Str.concat_all (p :: ps)) with (p ++ Str.concat_all ps).
    rewrite len_append. cbn [List.length]. rewrite Nat2Z.inj_succ. lia.
Qed.

(** X8.  A text of n characters gives at most n / 5001 + 1 pages: each
    page before the last holds at least 5,001 characters of the input. *)
Theorem paginate_page_count_bound (content : string) :
  5001 * (Z.of_nat (List.length (paginate content)) - 1) <= Str.len content.
Proof.
  destruct (paginate_sizes content) as (Hpos & Hlong & _).
  pose proof (paginate_concat content) as Hcat.
  destruct (paginate content) as [|p ps] eqn:Hp.
  - cbn. pose proof (len_nonneg content). lia.
  - assert (Hsplit : p :: ps
                     = (removelast (p :: ps) ++ [last (p :: ps) ""])%list)
      by (apply app_removelast_last; discriminate).
    set (before := removelast (p :: ps)) in *.
    set (final := last (p :: ps) "") in *.
    apply (f_equal Str.len) in Hcat.
    rewrite Hsplit in Hcat, Hpos |- *.
    rewrite concat_all_app, !len_append, len_nl in Hcat.
    apply Forall_app in Hpos. destruct Hpos as [_ Hfinal].
    inversion Hfinal as [|x l Hx _]; subst.
    pose proof (concat_all_long before Hlong) as Hlower.
    rewrite length_app. cbn [List.length].
    change (Str.concat_all [final]) with (final ++ "") in Hcat.
    rewrite append_empty_r in Hcat.
    rewrite Nat2Z.inj_add. change (Z.of_nat 1) with 1. lia.
Qed.

(* ------------------------------------------------------------------ *)
(** ** More on the HTTP trigger *)

Lemma nth_error_numbered (pages : list string) :
  forall (start : Z) (i : nat),
    nth_error (numbered start pages) i =
    option_map
      (fun content =>
         VDict [("page_number", VInt (start + Z.of_nat i + 1));
                ("content", VStr content)])
      (nth_error pages i).
Proof.
  induction pages as [|page rest IH]; intros start i.
  - destruct i; reflexivity.
  - destruct i as [|i]; cbn [numbered nth_error option_map].
    + now rewrite Z.add_0_r.
    + rewrite IH, Nat2Z.inj_succ.
      replace (start + Z.succ (Z.of_nat i) + 1)
        with (start + 1 + Z.of_nat i + 1) by lia.
      reflexivity.
Qed.

Lemma length_numbered (pages : list string) :
  forall start, List.length (numbered start pages) = List.length pages.
Proof.
  induction pages as [|page rest IH]; intros start; [reflexivity|].
  cbn [numbered List.length]. now rewrite IH.
Qed.

Lemma blen_zero_ltb (body : bytes) :
  blen body <> 0 -> (blen body =? 0) = false.
Proof. intros H. now apply Z.eqb_neq. Qed.

(** X9.  A direct upload that process_pdf opens is answered with status
    200 and the JSON object {"pages": [...]} that holds one item per page
    kept, item i being {"page_number": i+1, "content": the entry of page i};
    the calls are the open and the page loads. *)
Theorem direct_upload_pages (req : HttpRequest) (doc : document) :
  Str.contains (req_content_type req) "application/json" = false ->
  100 <= blen (req_get_body req) ->
  fitz_open (req_get_body req) = Ok doc ->
  exists items,
    split_pdf req =
    (Response (json_dumps (VDict [("pages", VList items)]))
       "application/json" 200,
     FitzOpen (req_get_body req)
       :: map LoadPage (seq 0 (Nat.min (doc_len doc) 300))) /\
    List.length items = Nat.min (doc_len doc) 300 /\
    forall i, (i < Nat.min (doc_len doc) 300)%nat ->
      nth_error items i = Some (page_item i (page_entry doc i)).
Proof.
  intros Hct Hlen Hopen.
  exists (numbered 0 (map (page_entry doc)
                        (seq 0 (Nat.min (doc_len doc) 300)))).
  split; [|split].
  - unfold split_pdf. cbv zeta. rewrite Hct. unfold direct.
    rewrite blen_zero_ltb by lia.
    rewrite bind_eq, (process_pdf_opened _ _ Hlen Hopen).
    unfold value, calls. cbn [fst snd Py.truthy_error ret].
    now rewrite app_nil_r.
  - now rewrite length_numbered, length_map, length_seq.
  - intros i Hi. rewrite nth_error_numbered, (nth_error_entries _ _ _ Hi).
    reflexivity.
Qed.

(** X10.  A direct upload that fails is answered in plain text: an empty
    body with status 400 and "No PDF data received in request body.",
    before anything else is tried; a body of 1 to 99 bytes with status 500
    and "Error: PDF data too small to be valid", the PDF library not being
    called; a body that the library cannot open with status 500 and
    "Error: Cannot open PDF document: <reason>". *)
Theorem direct_upload_errors (req : HttpRequest) :
  Str.contains (req_content_type req) "application/json" = false ->
  (blen (req_get_body req) = 0 ->
   split_pdf req =
   (Response "No PDF data received in request body." "text/plain" 400, []))
  /\
  (0 < blen (req_get_body req) < 100 ->
   split_pdf req =
   (Response "Error: PDF data too small to be valid" "text/plain" 500, []))
  /\
  (100 <= blen (req_get_body req) ->
   forall e, fitz_open (req_get_body req) = Raise e ->
     split_pdf req =
     (Response ("Error: Cannot open PDF document: " ++ exn_str e)
        "text/plain" 500,
      [FitzOpen (req_get_body req)])).
Proof.
  intros Hct. unfold split_pdf. cbv zeta. rewrite Hct. unfold direct.
  split; [|split].
  - intros ->. reflexivity.
  - intros Hsmall. rewrite blen_zero_ltb by lia.
    rewrite bind_eq, process_pdf_too_small by lia. reflexivity.
  - intros Hlen e Hopen. rewrite blen_zero_ltb by lia.
    destruct (process_pdf_cases (req_get_body req))
      as [[Hs _] | [[_ (e' & He' & Hrun)] | [_ (doc & Hdoc & _)]]];
      [lia | | congruence].
    rewrite Hopen in He'. injection He' as <-.
    rewrite bind_eq, Hrun. reflexivity.
Qed.

Lemma value_bind {A B} (m : io A) (k : A -> io B) :
  value (bind m k) = value (k (value m)).
Proof. now rewrite bind_eq. Qed.

Lemma calls_bind {A B} (m : io A) (k : A -> io B) :
  calls (bind m k) = (calls m ++ calls (k (value m)))%list.
Proof. now rewrite bind_eq. Qed.

Lemma enveloped_error record_id message :
  enveloped (create_error_response record_id message).
Proof.
  split; [reflexivity|]. left. exists record_id, message.
  split; [reflexivity|]. now left.
Qed.

Lemma enveloped_general e : enveloped (general_error e).
Proof.
  split; [reflexivity|]. left. eexists _, _.
  split; [reflexivity|]. now right; right.
Qed.

(** What answer_record makes of a well-formed outcome. *)
Lemma answer_record_value record_id content :
  (exists pages,
     value (process_skillset_content content record_id) = (Some pages, None)
     /\ value (answer_record record_id content) =
        Response
          (json_dumps (pages_envelope record_id (VList (map VStr pages))))
          "application/json" 200) \/
  (exists message,
     value (process_skillset_content content record_id)
       = (None, Some message)
     /\ value (answer_record record_id content) =
        create_error_response record_id message).
Proof.
  unfold answer_record. rewrite value_bind.
  destruct (resolver_well_formed content record_id)
    as [(pages & ->) | (message & -> & Ht)].
  - left. exists pages. split; reflexivity.
  - right. exists message. split; [reflexivity|].
    cbn [Py.truthy_error]. rewrite Ht. reflexivity.
Qed.

Lemma answer_record_calls record_id content :
  calls (answer_record record_id content) =
  calls (process_skillset_content content record_id).
Proof.
  unfold answer_record. rewrite calls_bind.
  destruct (value (process_skillset_content content record_id))
    as [pages error].
  destruct (Py.truthy_error error); apply app_nil_r.
Qed.

Lemma enveloped_answer record_id content :
  enveloped (value (answer_record record_id content)).
Proof.
  destruct (answer_record_value record_id content)
    as [(pages & _ & ->) | (message & _ & ->)].
  - split; [reflexivity|]. right. exists record_id, pages.
    split; reflexivity.
  - apply enveloped_error.
Qed.

(** The answers of the skillset branch: one made on the spot, or that of
    answer_record for content that Python counts as true. *)
Lemma skillset_answers request_json answer :
  skillset request_json = Ok answer ->
  (exists response, answer = ret response /\ enveloped response) \/
  (exists record_id content,
     Py.truthy content = true /\ answer = answer_record record_id content).
Proof.
  unfold skillset. intros H. repeat step_try.
  - left. eexists. split; [reflexivity | apply enveloped_error].
  - left. eexists. split; [reflexivity | apply enveloped_error].
  - right. eexists _, _. split; [|reflexivity].
    now apply negb_false_iff.
  - left. eexists. split; [reflexivity|].
    split; [reflexivity|]. left. eexists _, _.
    split; [reflexivity|]. now right; left.
Qed.

(** X11.  Every pipeline-mode response, whatever the request and whatever
    fails, is application/json and is either the error envelope, under
    status 200, 400 or 500, or, under status 200, the pages envelope with a
    list of pages in it: a caller never receives a null page list or an
    unstructured body. *)
Theorem pipeline_response_enveloped (req : HttpRequest) :
  Str.contains (req_content_type req) "application/json" = true ->
  resp_mimetype (value (split_pdf req)) = "application/json" /\
  ((exists record_id message,
      resp_body (value (split_pdf req)) =
        json_dumps (error_envelope record_id message) /\
      (resp_status (value (split_pdf req)) = 200 \/
       resp_status (value (split_pdf req)) = 400 \/
       resp_status (value (split_pdf req)) = 500)) \/
   (exists record_id pages,
      resp_body (value (split_pdf req)) =
        json_dumps (pages_envelope record_id (VList (map VStr pages))) /\
      resp_status (value (split_pdf req)) = 200)).
Proof.
  intros Hct. change (enveloped (value (split_pdf req))).
  unfold split_pdf. cbv zeta. rewrite Hct.
  destruct (req_get_json req) as [request_json|e].
  - destruct (skillset request_json) as [answer|e] eqn:Hs.
    + destruct (skillset_answers _ _ Hs)
        as [(r & -> & Hr) | (rid & content & _ & ->)];
        [exact Hr | apply enveloped_answer].
    + apply enveloped_general.
  - destruct (exn_cls e); try apply enveloped_general.
    split; [reflexivity|]. left. eexists _, _.
    split; [reflexivity|]. now right; left.
Qed.

(** X12.  A first record that is an object with an object as its "data" is
    always answered with status 200 and with its own record id ("0" when it
    has none), in the error envelope or in the pages envelope. *)
Theorem pipeline_record_answer (content_type : string) (body : bytes)
    (items record data : list (string * pyvalue)) (rest : list pyvalue) :
  Str.contains content_type "application/json" = true ->
  Py.lookup items "values" = Some (VList (VDict record :: rest)) ->
  Py.lookup record "data" = Some (VDict data) ->
  resp_status
    (value (split_pdf (Request content_type (Ok (VDict items)) body))) = 200
  /\
  ((exists message,
      resp_body
        (value (split_pdf (Request content_type (Ok (VDict items)) body)))
      = json_dumps (error_envelope (record_id_of record) message)) \/
   (exists pages,
      resp_body
        (value (split_pdf (Request content_type (Ok (VDict items)) body)))
      = json_dumps
          (pages_envelope (record_id_of record) (VList (map VStr pages))))).
Proof.
  intros Hct Hv Hd. unfold split_pdf.
  cbn [req_content_type req_get_json]. rewrite Hct.
  rewrite (skillset_record items record rest Hv), Hd. cbn [Py.get rbind].
  destruct (Py.truthy
              match Py.lookup data "content" with
              | Some x => x
              | None => VStr ""
              end); cbn [negb].
  - destruct (answer_record_value (record_id_of record)
                match Py.lookup data "content" with
                | Some x => x
                | None => VStr ""
                end)
      as [(pages & _ & ->) | (message & _ & ->)].
    + split; [reflexivity|]. right. exists pages. reflexivity.
    + split; [reflexivity|]. left. exists message. reflexivity.
  - split; [reflexivity|]. left. eexists. reflexivity.
Qed.

(** X13.  In pipeline mode a JSON body that is null, a boolean or a number,
    a first record that is not an object, and a "data" that is not an
    object all end in the handler of last resort: status 500, record id
    "0", "General function error: <reason>", and no external call. *)
Theorem pipeline_type_errors (content_type : string) (body : bytes) :
  Str.contains content_type "application/json" = true ->
  (forall request_json,
     request_json = VNone \/ (exists b, request_json = VBool b) \/
     (exists n, request_json = VInt n) \/
     (exists x, request_json = VFloat x) ->
     exists reason,
       split_pdf (Request content_type (Ok request_json) body) =
       (Response
          (json_dumps
             (error_envelope (VStr "0")
                ("General function error: " ++ reason)))
          "application/json" 500, [])) /\
  (forall items record rest,
     Py.lookup items "values" = Some (VList (record :: rest)) ->
     (forall fields, record <> VDict fields) ->
     exists reason,
       split_pdf (Request content_type (Ok (VDict items)) body) =
       (Response
          (json_dumps
             (error_envelope (VStr "0")
                ("General function error: " ++ reason)))
          "application/json" 500, [])) /\
  (forall items record rest data,
     Py.lookup items "values" = Some (VList (VDict record :: rest)) ->
     Py.lookup record "data" = Some data ->
     (forall fields, data <> VDict fields) ->
     exists reason,
       split_pdf (Request content_type (Ok (VDict items)) body) =
       (Response
          (json_dumps
             (error_envelope (VStr "0")
                ("General function error: " ++ reason)))
          "application/json" 500, [])).
Proof.
  intros Hct. unfold split_pdf. cbn [req_content_type req_get_json].
  rewrite Hct. split; [|split].
  - intros request_json [-> | [[b ->] | [[n ->] | [x ->]]]];
      eexists; reflexivity.
  - intros items record rest Hv Hrecord.
    unfold skillset, has_values. cbn [Py.contains Py.getitem rbind].
    rewrite Hv. cbn [Py.len Py.first rbind List.length].
    rewrite Nat2Z.inj_succ.
    assert (Hpos : (0 <? Z.succ (Z.of_nat (List.length rest))) = true)
      by (apply Z.ltb_lt; lia).
    rewrite Hpos.
    destruct record; try (eexists; reflexivity).
    now destruct (Hrecord items0).
  - intros items record rest data Hv Hd Hdata.
    rewrite (skillset_record items record rest Hv), Hd.
    destruct data; try (eexists; reflexivity).
    now destruct (Hdata items0).
Qed.

Lemma truthy_nonempty (text : string) :
  text <> "" -> Py.truthy (VStr text) = true.
Proof. destruct text; [congruence | reflexivity]. Qed.

(** X14.  End to end: a first record whose content is a non-empty string
    that neither starts with "http" nor decodes as base64 is answered with
    status 200 and the pages envelope that holds the record's id and the
    pages of the raw-text paginator, without any external call. *)
Theorem pipeline_raw_text_pages (content_type : string) (body : bytes)
    (items record data : list (string * pyvalue)) (rest : list pyvalue)
    (text : string) (e : exn) :
  Str.contains content_type "application/json" = true ->
  Py.lookup items "values" = Some (VList (VDict record :: rest)) ->
  Py.lookup record "data" = Some (VDict data) ->
  Py.lookup data "content" = Some (VStr text) ->
  text <> "" ->
  Str.startswith text "http" = false ->
  b64decode_str text = Raise e ->
  split_pdf (Request content_type (Ok (VDict items)) body) =
  ret (Response
         (json_dumps
            (pages_envelope (record_id_of record)
               (VList (map VStr (paginate text)))))
         "application/json" 200).
Proof.
  intros Hct Hv Hd Hc Htext Hhttp Hdec. unfold split_pdf.
  cbn [req_content_type req_get_json]. rewrite Hct.
  rewrite (skillset_record items record rest Hv), Hd. cbn [Py.get rbind].
  rewrite Hc, (truthy_nonempty _ Htext). cbn [negb].
  unfold answer_record, process_skillset_content.
  destruct (len_content_str text) as [n ->].
  rewrite as_url_str, Hhttp. cbn [b64decode]. rewrite Hdec.
  cbn [raw_text]. rewrite (truthy_nonempty _ Htext). reflexivity.
Qed.

(** X15.  End to end: a first record whose content is a non-empty string
    that does not start with "http" and decodes as base64 is answered from
    process_pdf on the decoded bytes, always under status 200 and with the
    record's id: its pages in the pages envelope, or its error in the error
    envelope; the external calls are those of process_pdf. *)
Theorem pipeline_base64_pdf (content_type : string) (body : bytes)
    (items record data : list (string * pyvalue)) (rest : list pyvalue)
    (text : string) (pdf_bytes : bytes) :
  Str.contains content_type "application/json" = true ->
  Py.lookup items "values" = Some (VList (VDict record :: rest)) ->
  Py.lookup record "data" = Some (VDict data) ->
  Py.lookup data "content" = Some (VStr text) ->
  text <> "" ->
  Str.startswith text "http" = false ->
  b64decode_str text = Ok pdf_bytes ->
  calls (split_pdf (Request content_type (Ok (VDict items)) body))
    = calls (process_pdf pdf_bytes) /\
  (forall pages,
     value (process_pdf pdf_bytes) = (Some pages, None) ->
     value (split_pdf (Request content_type (Ok (VDict items)) body)) =
     Response
       (json_dumps
          (pages_envelope (record_id_of record) (VList (map VStr pages))))
       "application/json" 200) /\
  (forall message,
     value (process_pdf pdf_bytes) = (None, Some message) ->
     value (split_pdf (Request content_type (Ok (VDict items)) body)) =
     Response
       (json_dumps (error_envelope (record_id_of record) message))
       "application/json" 200).
Proof.
  intros Hct Hv Hd Hc Htext Hhttp Hdec.
  assert (Hrun : process_skillset_content (VStr text) (record_id_of record)
                 = process_pdf pdf_bytes).
  { unfold process_skillset_content.
    destruct (len_content_str text) as [n ->].
    rewrite as_url_str, Hhttp. cbn [b64decode]. now rewrite Hdec. }
  assert (Hsplit :
            split_pdf (Request content_type (Ok (VDict items)) body)
            = answer_record (record_id_of record) (VStr text)).
  { unfold split_pdf. cbn [req_content_type req_get_json]. rewrite Hct.
    rewrite (skillset_record items record rest Hv), Hd. cbn [Py.get rbind].
    rewrite Hc, (truthy_nonempty _ Htext). reflexivity. }
  rewrite Hsplit, answer_record_calls, Hrun. split; [reflexivity|].
  destruct (answer_record_value (record_id_of record) (VStr text))
    as [(pages & Hp & Hval) | (message & Hm & Hval)].
  - rewrite Hrun in Hp. split; intros x Hx; rewrite Hp in Hx.
    + injection Hx as <-. exact Hval.
    + discriminate Hx.
  - rewrite Hrun in Hm. split; intros x Hx; rewrite Hm in Hx.
    + discriminate Hx.
    + injection Hx as <-. exact Hval.
Qed.

(* ------------------------------------------------------------------ *)
(** ** The external calls of a request *)

Lemma extraction_calls_process_pdf (pdf_bytes : bytes) :
  extraction_calls (calls (process_pdf pdf_bytes)).
Proof.
  destruct (process_pdf_cases pdf_bytes)
    as [[_ ->] | [[_ (e & _ & ->)] | [_ (doc & _ & ->)]]]; unfold calls;
    cbn [snd].
  - now left.
  - right. exists pdf_bytes. now left.
  - right. exists pdf_bytes. right.
    exists (Nat.min (doc_len doc) 300). split; [apply Nat.le_min_r|].
    reflexivity.
Qed.

Lemma extraction_calls_no_request (cs : list call) url timeout :
  extraction_calls cs -> ~ In (RequestsGet url timeout) cs.
Proof.
  intros [-> | (b & [-> | (n & _ & ->)])] Hin.
  - destruct Hin.
  - destruct Hin as [H|[]]. discriminate H.
  - destruct Hin as [H|Hin]; [discriminate H|].
    apply in_map_iff in Hin. destruct Hin as (k & H & _). discriminate H.
Qed.

Lemma extraction_calls_length (cs : list call) :
  extraction_calls cs -> (List.length cs <= 301)%nat.
Proof.
  intros [-> | (b & [-> | (n & Hn & ->)])]; cbn [List.length]; try lia.
  rewrite length_map, length_seq. lia.
Qed.

(** The calls of the resolver: at most one request, made for content that
    starts with "http", then those of at most one extraction. *)
Lemma resolver_calls (content record_id : pyvalue) :
  exists request pdf,
    calls (process_skillset_content content record_id)
      = (request ++ pdf)%list /\
    (request = [] \/
     exists url, content = VStr url /\ Str.startswith url "http" = true /\
       request = [RequestsGet url 30]) /\
    extraction_calls pdf.
Proof.
  destruct (resolver_cases content record_id)
    as [(e & ->) | [(url & -> & Hhttp & ->) | [(pdf_bytes & ->) | ->]]].
  - exists [], []. repeat split; now left.
  - destruct (fetch_url_cases url)
      as [(e & _ & ->) | [(r & _ & _ & ->) | (r & _ & _ & ->)]];
      unfold calls at 1; cbn [snd].
    + exists [RequestsGet url 30], []. repeat split; [|now left].
      right. exists url. auto.
    + exists [RequestsGet url 30], []. repeat split; [|now left].
      right. exists url. auto.
    + exists [RequestsGet url 30], (calls (process_pdf (reply_content r))).
      repeat split; [|apply extraction_calls_process_pdf].
      right. exists url. auto.
  - exists [], (calls (process_pdf pdf_bytes)).
    repeat split; [now left | apply extraction_calls_process_pdf].
  - exists [], []. repeat split; now left.
Qed.

(** Where the calls of a request come from. *)
Lemma split_pdf_calls (req : HttpRequest) :
  calls (split_pdf req) = [] \/
  (Str.contains (req_content_type req) "application/json" = true /\
   exists record_id content,
     calls (split_pdf req)
     = calls (process_skillset_content content record_id)) \/
  (Str.contains (req_content_type req) "application/json" = false /\
   calls (split_pdf req) = calls (process_pdf (req_get_body req))).
Proof.
  unfold split_pdf. cbv zeta.
  destruct (Str.contains (req_content_type req) "application/json").
  - destruct (req_get_json req) as [request_json|e].
    + destruct (skillset request_json) as [answer|e] eqn:Hs; [|now left].
      destruct (skillset_answers _ _ Hs)
        as [(r & -> & _) | (rid & content & _ & ->)]; [now left|].
      right. left. split; [reflexivity|]. exists rid, content.
      apply answer_record_calls.
    + left. destruct (exn_cls e); reflexivity.
  - unfold direct. destruct (blen (req_get_body req) =? 0); [now left|].
    right. right. split; [reflexivity|]. rewrite calls_bind.
    destruct (value (process_pdf (req_get_body req))) as [pages error].
    destruct (Py.truthy_error error); [apply app_nil_r|].
    destruct pages; apply app_nil_r.
Qed.

(** X16.  A request to the network is only ever made in pipeline mode, for
    a URL that starts with "http", and with the timeout 30: a direct
    upload, and content that is not such a string, never reach the HTTP
    client. *)
Theorem network_only_for_urls (req : HttpRequest) (url : string)
    (timeout : Z) :
  In (RequestsGet url timeout) (calls (split_pdf req)) ->
  Str.contains (req_content_type req) "application/json" = true /\
  Str.startswith url "http" = true /\
  timeout = 30.
Proof.
  intros Hin.
  destruct (split_pdf_calls req)
    as [H | [(Hct & rid & content & H) | (_ & H)]]; rewrite H in Hin.
  - destruct Hin.
  - split; [exact Hct|].
    destruct (resolver_calls content rid)
      as (request & pdf & Hcalls & Hrequest & Hpdf).
    rewrite Hcalls in Hin. apply in_app_or in Hin.
    destruct Hin as [Hin|Hin].
    + destruct Hrequest as [-> | (u & _ & Hhttp & ->)]; [destruct Hin|].
      destruct Hin as [Heq|[]]. injection Heq as <- <-. auto.
    + now apply extraction_calls_no_request in Hin.
  - exfalso. revert Hin. apply extraction_calls_no_request.
    apply extraction_calls_process_pdf.
Qed.

(** X17.  The external calls of any request are, in this order: at most one
    network request, with timeout 30; then at most one open of a PDF and,
    after it, the loads of pages 0, 1, ... up to at most 300 pages.  So no
    request costs more than 302 external calls. *)
Theorem split_pdf_call_protocol (req : HttpRequest) :
  (exists request pdf,
     calls (split_pdf req) = (request ++ pdf)%list /\
     (request = [] \/ exists url, request = [RequestsGet url 30]) /\
     (pdf = [] \/
      exists pdf_bytes,
        pdf = [FitzOpen pdf_bytes] \/
        exists n, (n <= 300)%nat /\
          pdf = FitzOpen pdf_bytes :: map LoadPage (seq 0 n))) /\
  (List.length (calls (split_pdf req)) <= 302)%nat.
Proof.
  assert (Hshape :
            exists request pdf,
              calls (split_pdf req) = (request ++ pdf)%list /\
              (request = [] \/ exists url, request = [RequestsGet url 30]) /\
              extraction_calls pdf).
  { destruct (split_pdf_calls req)
      as [H | [(_ & rid & content & H) | (_ & H)]]; rewrite H.
    - exists [], []. repeat split; now left.
    - destruct (resolver_calls content rid)
        as (request & pdf & Hcalls & Hrequest & Hpdf).
      exists request, pdf. repeat split; [exact Hcalls | | exact Hpdf].
      destruct Hrequest as [-> | (u & _ & _ & ->)]; [now left|].
      right. now exists u.
    - exists [], (calls (process_pdf (req_get_body req))).
      repeat split; [now left | apply extraction_calls_process_pdf]. }
  split; [exact Hshape|].
  destruct Hshape as (request & pdf & -> & Hrequest & Hpdf).
  rewrite length_app. apply extraction_calls_length in Hpdf.
  destruct Hrequest as [-> | (u & ->)]; cbn [List.length]; lia.
Qed.

(** X5.  Content that is not a string never gives pages and never causes
    an external call.  Its error is "Invalid or empty content" exactly when
    it is a value that Python counts as false (null, false, 0, 0.0) or a
    list or an object; any other number, and true, gives "Error processing
    content: object of type '<type>' has no len()" instead. *)
Theorem resolver_non_string_content (content record_id : pyvalue) :
  Py.is_str content = false ->
  exists message,
    process_skillset_content content record_id = ((None, Some message), [])
    /\
    (message = "Invalid or empty content" <->
     Py.truthy content = false \/
     (exists xs, content = VList xs) \/
     (exists items, content = VDict items)) /\
    (message <> "Invalid or empty content" ->
     message = "Error processing content: object of type '"
               ++ Py.type_name content ++ "' has no len()").
Proof.
  intros Hstr.
  destruct content as [| [|] | n | x | s | xs | items];
    try discriminate Hstr.
  - eexists. split; [reflexivity|]. split; [|congruence].
    split; [now left | reflexivity].
  - eexists. split; [reflexivity|]. split; [|reflexivity]. split.
    + discriminate.
    + intros [H | [[ys H] | [ys H]]]; discriminate H.
  - eexists. split; [reflexivity|]. split; [|congruence].
    split; [now left | reflexivity].
  - destruct (Z.eq_dec n 0) as [-> | Hn].
    + eexists. split; [reflexivity|]. split; [|congruence].
      split; [now left | reflexivity].
    + assert (Ht : Py.truthy (VInt n) = true)
        by (cbn; now apply negb_true_iff, Z.eqb_neq).
      eexists. split.
      * unfold process_skillset_content. rewrite Ht. reflexivity.
      * split; [|reflexivity]. split; [discriminate|].
        intros [H | [[ys H] | [ys H]]]; [congruence | discriminate H..].
  - destruct x as [sign | sign | | sign m e].
    + eexists. split; [reflexivity|]. split; [|congruence].
      split; [now left | reflexivity].
    + eexists. split; [reflexivity|]. split; [|reflexivity]. split.
      * discriminate.
      * intros [H | [[ys H] | [ys H]]]; discriminate H.
    + eexists. split; [reflexivity|]. split; [|reflexivity]. split.
      * discriminate.
      * intros [H | [[ys H] | [ys H]]]; discriminate H.
    + eexists. split; [reflexivity|]. split; [|reflexivity]. split.
      * discriminate.
      * intros [H | [[ys H] | [ys H]]]; discriminate H.
  - eexists. split; [destruct xs; reflexivity|]. split; [|congruence].
    split; [|reflexivity]. intros _. right. left. now exists xs.
  - eexists. split; [destruct items; reflexivity|]. split; [|congruence].
    split; [|reflexivity]. intros _. right. right. now exists items.
Qed.

End FunctionApp.

(* ------------------------------------------------------------------ *)
(** ** The theorems at the sample inputs *)

Lemma process_pdf_too_small_witness :
  process_pdf Sample.fitz_open Sample.tiny =
  ((None, Some "PDF data too small to be valid"), []).
Proof.
  apply (process_pdf_too_small Sample.fitz_open Sample.tiny).
  reflexivity.
Defined.

Lemma process_pdf_page_count_witness :
  exists pages,
    value (process_pdf Sample.fitz_open Sample.pdf_bytes) = (Some pages, None)
    /\ List.length pages = 300%nat.
Proof.
  destruct (process_pdf_page_count Sample.fitz_open Sample.pdf_bytes
              Sample.book)
    as (pages & Hvalue & Hlen & _).
  - apply Z.leb_le. reflexivity.
  - reflexivity.
  - exists pages. split; [exact Hvalue | exact Hlen].
Defined.

Lemma process_pdf_limits_page_text_witness :
  exists pages first rest,
    value (process_pdf Sample.fitz_open Sample.pdf_bytes) = (Some pages, None)
    /\ Str.repeat "x" 100001 = first ++ rest
    /\ Str.len first = 100000
    /\ nth_error pages 0 = Some (first ++ "... [content truncated]").
Proof.
  destruct (process_pdf_limits_page_text Sample.fitz_open Sample.pdf_bytes
              Sample.book 0 (Str.repeat "x" 100001))
    as (pages & Hvalue & Hlong & _).
  - apply Z.leb_le. reflexivity.
  - reflexivity.
  - apply Nat.ltb_lt. reflexivity.
  - reflexivity.
  - destruct Hlong as (first & rest & Hsplit & Hlen & Hpage).
    + apply Z.ltb_lt. vm_compute. reflexivity.
    + exists pages, first, rest. auto.
Defined.

Lemma process_pdf_isolates_page_fault_witness :
  exists pages first rest,
    value (process_pdf Sample.fitz_open Sample.pdf_bytes) = (Some pages, None)
    /\ List.length pages = 300%nat
    /\ nth_error pages 1 = Some "[Error extracting page 2: cannot load page]"
    /\ nth_error pages 2 = Some "text of page 3"
    /\ Str.repeat "x" 100001 = first ++ rest
    /\ Str.len first = 100000
    /\ nth_error pages 0 = Some (first ++ "... [content truncated]").
Proof.
  destruct (process_pdf_isolates_page_fault Sample.fitz_open Sample.pdf_bytes
              Sample.book 1 (Exn OtherError "cannot load page"))
    as (pages & Hvalue & Hlen & Hfault & Htexts & _).
  - apply Z.leb_le. reflexivity.
  - reflexivity.
  - apply Nat.ltb_lt. reflexivity.
  - reflexivity.
  - destruct (Htexts 2%nat "text of page 3") as [Hshort _];
      [discriminate | apply Nat.ltb_lt; reflexivity | reflexivity |].
    destruct (Htexts 0%nat (Str.repeat "x" 100001)) as [_ Hlong];
      [discriminate | apply Nat.ltb_lt; reflexivity | reflexivity |].
    destruct Hlong as (first & rest & Hsplit & Hfirst & Hpage);
      [apply Z.ltb_lt; vm_compute; reflexivity|].
    exists pages, first, rest. repeat split; try assumption.
    apply Hshort. apply Z.leb_le. reflexivity.
Defined.

(** C1 as stated fails: in the sample book page 2 cannot be loaded, and
    position 0 holds 100,023 characters, not the 100,001 extracted for
    page 1. *)
Lemma process_pdf_other_page_counterexample :
  doc_page_text Sample.book 1 = Raise (Exn OtherError "cannot load page") /\
  doc_page_text Sample.book 0 = Ok (Str.repeat "x" 100001) /\
  exists pages,
    value (process_pdf Sample.fitz_open Sample.pdf_bytes) = (Some pages, None)
    /\ nth_error pages 0 <> Some (Str.repeat "x" 100001).
Proof.
  split; [reflexivity|]. split; [reflexivity|].
  assert (Hlen : 100 <= blen Sample.pdf_bytes)
    by (apply Z.leb_le; reflexivity).
  exists (map (page_entry Sample.book)
            (seq 0 (Nat.min (doc_len Sample.book) 300))).
  rewrite (process_pdf_opened Sample.fitz_open Sample.pdf_bytes Sample.book
             Hlen eq_refl).
  split; [reflexivity|].
  rewrite nth_error_entries by (apply Nat.ltb_lt; reflexivity).
  change (page_entry Sample.book 0)
    with (limit_text (Str.repeat "x" 100001)).
  assert (Htext : Str.len (Str.repeat "x" 100001) = 100001)
    by (vm_compute; reflexivity).
  assert (Hpage : Str.len (limit_text (Str.repeat "x" 100001)) = 100023)
    by (apply limit_text_len; rewrite Htext; lia).
  intros H.
  assert (Hsame : Str.len (limit_text (Str.repeat "x" 100001))
                  = Str.len (Str.repeat "x" 100001)) by congruence.
  rewrite Hpage, Htext in Hsame. discriminate Hsame.
Qed.

Lemma raw_text_content_pagination_witness :
  exists pages,
    process_skillset_content Sample.fitz_open Sample.requests_get
      Base64.b64decode (VStr Sample.ab_lines) (VStr "r1")
    = ((Some pages, None), []) /\
    (2 <= List.length pages)%nat /\
    Str.concat_all pages = Sample.ab_lines ++ Str.nl.
Proof.
  destruct (raw_text_content_pagination Sample.fitz_open Sample.requests_get
              Base64.b64decode Sample.ab_lines (VStr "r1")
              (Exn ValueError "Incorrect padding"))
    as (pages & Hrun & Htwo & _ & Hcat).
  - vm_compute. reflexivity.
  - vm_compute. reflexivity.
  - apply Z.ltb_lt. vm_compute. reflexivity.
  - exists pages. auto.
Defined.

(** C4 as stated fails.  "ab\n" * 2001 reaches the paginator, and its
    pages put end to end are not the input; one line of 6001 characters
    reaches it and is a single page; and "a\n" * 3000 does not reach it:
    it decodes as base64 and goes to process_pdf, here to an error. *)
Lemma raw_text_roundtrip_counterexample :
  (exists pages,
     process_skillset_content Sample.fitz_open Sample.requests_get
       Base64.b64decode (VStr Sample.ab_lines) (VStr "r1")
     = ((Some pages, None), []) /\
     Str.concat_all pages <> Sample.ab_lines) /\
  (5000 < Str.len Sample.odd_line /\
   process_skillset_content Sample.fitz_open Sample.requests_get
     Base64.b64decode (VStr Sample.odd_line) (VStr "r1")
   = ((Some [Sample.odd_line ++ Str.nl], None), [])) /\
  (exists decoded,
     Base64.b64decode Sample.a_lines = Ok decoded /\
     process_skillset_content Sample.fitz_open Sample.requests_get
       Base64.b64decode (VStr Sample.a_lines) (VStr "r1")
     = process_pdf Sample.fitz_open decoded /\
     value (process_pdf Sample.fitz_open decoded)
     = (None, Some "Cannot open PDF document: Failed to open stream")).
Proof.
  split; [|split].
  - exists (paginate Sample.ab_lines). split; [vm_compute; reflexivity|].
    assert (Hpages : Str.len (Str.concat_all (paginate Sample.ab_lines))
                     = 6004) by (vm_compute; reflexivity).
    assert (Hinput : Str.len Sample.ab_lines = 6003)
      by (vm_compute; reflexivity).
    intros H. rewrite H, Hinput in Hpages. discriminate Hpages.
  - split; [apply Z.ltb_lt; vm_compute; reflexivity|].
    vm_compute. reflexivity.
  - exists (match Base64.b64decode Sample.a_lines with
            | Ok decoded => decoded
            | Raise _ => []
            end).
    split; [vm_compute; reflexivity|].
    split; vm_compute; reflexivity.
Qed.

Lemma raw_text_content_at_least_one_page_witness :
  process_skillset_content Sample.fitz_open Sample.requests_get
    Base64.b64decode (VStr Sample.nbsp) (VStr "r1")
  = ((Some (paginate Sample.nbsp), None), []) /\
  paginate Sample.nbsp = [Sample.nbsp ++ Str.nl].
Proof.
  destruct (raw_text_content_at_least_one_page Sample.fitz_open
              Sample.requests_get Base64.b64decode Sample.nbsp (VStr "r1"))
    as (_ & Hpages).
  destruct Hpages as (Hrun & _ & Hone).
  - discriminate.
  - reflexivity.
  - eexists. reflexivity.
  - split; [exact Hrun|]. apply Hone. apply Z.ltb_lt. reflexivity.
Defined.

(** C7 as stated fails: a no-break space alone, which is whitespace and
    not base64, is paginated into one page, not into none. *)
Lemma whitespace_content_counterexample :
  process_skillset_content Sample.fitz_open Sample.requests_get
    Base64.b64decode (VStr Sample.nbsp) (VStr "r1")
  = ((Some [Sample.nbsp ++ Str.nl], None), []) /\
  value (process_skillset_content Sample.fitz_open Sample.requests_get
           Base64.b64decode (VStr Sample.nbsp) (VStr "r1"))
  <> (Some [], None).
Proof.
  split; [reflexivity | discriminate].
Qed.

Lemma content_classification_witness :
  (exists decoded, Base64.b64decode "httpAAAA" = Ok decoded) /\
  (classify Base64.b64decode "httpAAAA" = Url "httpAAAA" /\
   exists later,
     calls (process_skillset_content Sample.fitz_open Sample.requests_get
              Base64.b64decode (VStr "httpAAAA") (VStr "r1"))
     = RequestsGet "httpAAAA" 30 :: later) /\
  classify Base64.b64decode "aGVsbG8=" =
    Base64Binary [Byte.x68; Byte.x65; Byte.x6c; Byte.x6c; Byte.x6f] /\
  classify Base64.b64decode "hello world" = RawText "hello world".
Proof.
  split; [eexists; reflexivity|]. split; [|split].
  - apply (content_classification Sample.fitz_open Sample.requests_get
             Base64.b64decode "httpAAAA" (VStr "r1")).
    + reflexivity.
    + left. reflexivity.
  - apply (content_classification Sample.fitz_open Sample.requests_get
             Base64.b64decode "aGVsbG8=" (VStr "r1")); reflexivity.
  - apply (content_classification Sample.fitz_open Sample.requests_get
             Base64.b64decode "hello world" (VStr "r1")
             eq_refl)
      with (e := Exn ValueError "Incorrect padding"); reflexivity.
Defined.

Lemma empty_or_unsized_content_outcome_witness :
  process_skillset_content Sample.fitz_open Sample.requests_get
    Base64.b64decode (VStr "") (VStr "r1") =
    ((None, Some "PDF data too small to be valid"), []) /\
  process_skillset_content Sample.fitz_open Sample.requests_get
    Base64.b64decode (VInt 5) (VStr "r1") =
    ((None, Some "Error processing content: object of type 'int' has no len()"),
     []).
Proof.
  apply (empty_or_unsized_content_outcome Sample.fitz_open
           Sample.requests_get Base64.b64decode (VStr "r1")).
  reflexivity.
Defined.

Lemma pipeline_validation_failures_witness :
  split_pdf Sample.fitz_open Sample.requests_get Base64.b64decode Json.dumps
    (Request "application/json" (Ok (VDict [])) []) =
  ret (Response
         (Json.dumps
            (error_envelope (VStr "0")
               "Invalid request format: missing 'values' array"))
         "application/json" 400) /\
  split_pdf Sample.fitz_open Sample.requests_get Base64.b64decode Json.dumps
    (Request "application/json" (Ok Sample.without_data) []) =
  ret (Response
         (Json.dumps (error_envelope (VStr "r1") "No data field in request"))
         "application/json" 200).
Proof.
  destruct (pipeline_validation_failures Sample.fitz_open Sample.requests_get
              Base64.b64decode Json.dumps "application/json" [])
    as (_ & Hvalues & Hdata & _).
  - reflexivity.
  - split.
    + apply Hvalues. left. reflexivity.
    + apply (Hdata _ [("recordId", VStr "r1")] []); reflexivity.
Defined.

(** C8 as stated fails: a record without a data field is answered with the
    error envelope under status 200, not 400; so is empty content. *)
Lemma pipeline_status_counterexample :
  split_pdf Sample.fitz_open Sample.requests_get Base64.b64decode Json.dumps
    (Request "application/json" (Ok Sample.without_data) []) =
  ret (Response
         (Json.dumps (error_envelope (VStr "r1") "No data field in request"))
         "application/json" 200) /\
  resp_status
    (value (split_pdf Sample.fitz_open Sample.requests_get Base64.b64decode
              Json.dumps
              (Request "application/json" (Ok Sample.without_data) [])))
    <> 400 /\
  resp_status
    (value (split_pdf Sample.fitz_open Sample.requests_get Base64.b64decode
              Json.dumps
              (Request "application/json" (Ok Sample.empty_content) [])))
    <> 400.
Proof.
  split; [reflexivity|]. split; vm_compute; discriminate.
Qed.

Lemma pipeline_first_record_only_witness :
  split_pdf Sample.fitz_open Sample.requests_get Base64.b64decode Json.dumps
    (Request "application/json" (Ok (VDict Sample.two_records)) []) =
  split_pdf Sample.fitz_open Sample.requests_get Base64.b64decode Json.dumps
    (Request "application/json" (Ok (VDict Sample.one_record)) []).
Proof.
  apply (pipeline_first_record_only Sample.fitz_open Sample.requests_get
           Base64.b64decode Json.dumps "application/json" [] []
           Sample.two_records Sample.one_record
           Sample.first_record Sample.second_record []);
    reflexivity.
Defined.

(* ------------------------------------------------------------------ *)
(** ** The further theorems at the sample inputs *)

Lemma process_pdf_error_messages_witness :
  process_pdf Sample.fitz_open (List.repeat Byte.x20 100) =
  ((None, Some "Cannot open PDF document: Failed to open stream"),
   [FitzOpen (List.repeat Byte.x20 100)]).
Proof.
  destruct (process_pdf_error_messages Sample.fitz_open
              (List.repeat Byte.x20 100))
    as (_ & Hopen & _).
  apply (Hopen (Exn OtherError "Failed to open stream")).
  - apply Z.leb_le. reflexivity.
  - reflexivity.
Defined.

Lemma extracted_page_length_witness :
  exists pages page,
    value (process_pdf Sample.fitz_open Sample.pdf_bytes) = (Some pages, None)
    /\ nth_error pages 0 = Some page /\ Str.len page = 100023.
Proof.
  destruct (extracted_page_length Sample.fitz_open Sample.pdf_bytes
              Sample.book 0 (Str.repeat "x" 100001))
    as (pages & page & Hvalue & Hpage & _ & Hlong).
  - apply Z.leb_le. reflexivity.
  - reflexivity.
  - apply Nat.ltb_lt. reflexivity.
  - reflexivity.
  - exists pages, page. repeat split; try assumption.
    apply Hlong. apply Z.ltb_lt. vm_compute. reflexivity.
Defined.

Lemma resolver_outcome_well_formed_witness :
  well_formed
    (value (process_skillset_content Sample.fitz_open Sample.requests_get
              Base64.b64decode (VStr "hello world") (VStr "r1"))).
Proof.
  apply (resolver_outcome_well_formed Sample.fitz_open Sample.requests_get
           Base64.b64decode (VStr "hello world") (VStr "r1")).
Defined.

Lemma url_content_outcomes_witness :
  process_skillset_content Sample.fitz_open Sample.requests_get
    Base64.b64decode (VStr "https://example.org/b.pdf") (VStr "r2") =
  ((None, Some "Failed to download from URL: status code 404"),
   [RequestsGet "https://example.org/b.pdf" 30]).
Proof.
  destruct (url_content_outcomes Sample.fitz_open Sample.requests_get
              Base64.b64decode "https://example.org/b.pdf" (VStr "r2"))
    as (_ & Hstatus & _).
  - reflexivity.
  - apply (Hstatus (Reply 404 [])); [reflexivity | discriminate].
Defined.

Lemma network_only_for_urls_witness :
  Str.contains "application/json" "application/json" = true /\
  Str.startswith "https://example.org/b.pdf" "http" = true /\
  30 = 30.
Proof.
  apply (network_only_for_urls Sample.fitz_open Sample.requests_get
           Base64.b64decode Json.dumps
           (Request "application/json"
              (Ok (VDict [("values", VList [Sample.second_record])])) [])
           "https://example.org/b.pdf" 30).
  vm_compute. left. reflexivity.
Defined.

Lemma split_pdf_call_protocol_witness :
  (List.length
     (calls (split_pdf Sample.fitz_open Sample.requests_get Base64.b64decode
               Json.dumps
               (Request "application/pdf" (Ok VNone) Sample.pdf_bytes)))
   <= 302)%nat.
Proof.
  destruct (split_pdf_call_protocol Sample.fitz_open Sample.requests_get
              Base64.b64decode Json.dumps
              (Request "application/pdf" (Ok VNone) Sample.pdf_bytes))
    as (_ & Hbound).
  exact Hbound.
Defined.

Lemma resolver_non_string_content_witness :
  exists message,
    process_skillset_content Sample.fitz_open Sample.requests_get
      Base64.b64decode (VList [VInt 1]) (VStr "r1") = ((None, Some message), [])
    /\ message = "Invalid or empty content".
Proof.
  destruct (resolver_non_string_content Sample.fitz_open Sample.requests_get
              Base64.b64decode (VList [VInt 1]) (VStr "r1"))
    as (message & Hrun & Hinvalid & _).
  - reflexivity.
  - exists message. split; [exact Hrun|].
    apply Hinvalid. right. left. now exists [VInt 1].
Defined.

Lemma paginate_page_sizes_witness :
  Forall (fun page => 5000 < Str.len page)
    (removelast (paginate Sample.a_lines)).
Proof.
  destruct (paginate_page_sizes Sample.a_lines) as (_ & Hlong & _).
  exact Hlong.
Defined.

Lemma paginate_page_count_threshold_witness :
  paginate Sample.long_line = [Sample.long_line ++ Str.nl].
Proof.
  destruct (paginate_page_count_threshold Sample.long_line) as (_ & Hone).
  apply Hone. apply Z.leb_le. vm_compute. reflexivity.
Defined.

Lemma paginate_page_count_bound_witness :
  5001 * (Z.of_nat (List.length (paginate Sample.a_lines)) - 1)
  <= Str.len Sample.a_lines.
Proof.
  apply (paginate_page_count_bound Sample.a_lines).
Defined.

Lemma direct_upload_pages_witness :
  exists items,
    value (split_pdf Sample.fitz_open Sample.requests_get Base64.b64decode
             Json.dumps
             (Request "application/pdf" (Ok VNone) Sample.pdf_bytes))
    = Response (Json.dumps (VDict [("pages", VList items)]))
        "application/json" 200
    /\ List.length items = 300%nat
    /\ nth_error items 2 = Some (page_item 2 "text of page 3").
Proof.
  destruct (direct_upload_pages Sample.fitz_open Sample.requests_get
              Base64.b64decode Json.dumps
              (Request "application/pdf" (Ok VNone) Sample.pdf_bytes)
              Sample.book)
    as (items & Hrun & Hlen & Hitem).
  - reflexivity.
  - apply Z.leb_le. reflexivity.
  - reflexivity.
  - exists items. split; [now rewrite Hrun|]. split; [exact Hlen|].
    apply (Hitem 2%nat). apply Nat.ltb_lt. reflexivity.
Defined.

Lemma direct_upload_errors_witness :
  split_pdf Sample.fitz_open Sample.requests_get Base64.b64decode Json.dumps
    (Request "application/pdf" (Ok VNone) []) =
  (Response "No PDF data received in request body." "text/plain" 400, [])
  /\
  split_pdf Sample.fitz_open Sample.requests_get Base64.b64decode Json.dumps
    (Request "application/pdf" (Ok VNone) Sample.tiny) =
  (Response "Error: PDF data too small to be valid" "text/plain" 500, []).
Proof.
  split.
  - destruct (direct_upload_errors Sample.fitz_open Sample.requests_get
                Base64.b64decode Json.dumps
                (Request "application/pdf" (Ok VNone) []))
      as (Hempty & _); [reflexivity|].
    apply Hempty. reflexivity.
  - destruct (direct_upload_errors Sample.fitz_open Sample.requests_get
                Base64.b64decode Json.dumps
                (Request "application/pdf" (Ok VNone) Sample.tiny))
      as (_ & Hsmall & _); [reflexivity|].
    apply Hsmall. split; reflexivity.
Defined.

Lemma pipeline_response_enveloped_witness :
  resp_mimetype
    (value (split_pdf Sample.fitz_open Sample.requests_get Base64.b64decode
              Json.dumps
              (Request "application/json" (Ok (VDict Sample.two_records)) [])))
  = "application/json".
Proof.
  destruct (pipeline_response_enveloped Sample.fitz_open Sample.requests_get
              Base64.b64decode Json.dumps
              (Request "application/json" (Ok (VDict Sample.two_records)) []))
    as [Hmime _]; [reflexivity | exact Hmime].
Defined.

Lemma pipeline_record_answer_witness :
  resp_status
    (value (split_pdf Sample.fitz_open Sample.requests_get Base64.b64decode
              Json.dumps
              (Request "application/json" (Ok (VDict Sample.one_record)) [])))
  = 200.
Proof.
  destruct (pipeline_record_answer Sample.fitz_open Sample.requests_get
              Base64.b64decode Json.dumps "application/json" []
              Sample.one_record
              [("recordId", VStr "r1");
               ("data", VDict [("content", VStr "hello world")])]
              [("content", VStr "hello world")] [])
    as [Hstatus _]; [reflexivity.. | exact Hstatus].
Defined.

Lemma pipeline_type_errors_witness :
  (exists reason,
     split_pdf Sample.fitz_open Sample.requests_get Base64.b64decode
       Json.dumps (Request "application/json" (Ok (VInt 7)) []) =
     (Response
        (Json.dumps
           (error_envelope (VStr "0") ("General function error: " ++ reason)))
        "application/json" 500, []))
  /\
  (exists reason,
     split_pdf Sample.fitz_open Sample.requests_get Base64.b64decode
       Json.dumps
       (Request "application/json"
          (Ok (VDict [("values", VList [VStr "r1"])])) []) =
     (Response
        (Json.dumps
           (error_envelope (VStr "0") ("General function error: " ++ reason)))
        "application/json" 500, [])).
Proof.
  destruct (pipeline_type_errors Sample.fitz_open Sample.requests_get
              Base64.b64decode Json.dumps "application/json" [])
    as (Hscalar & Hrecord & _); [reflexivity|].
  split.
  - apply (Hscalar (VInt 7)). right. right. left. now exists 7.
  - apply (Hrecord [("values", VList [VStr "r1"])] (VStr "r1") []);
      [reflexivity | discriminate].
Defined.

Lemma pipeline_raw_text_pages_witness :
  split_pdf Sample.fitz_open Sample.requests_get Base64.b64decode Json.dumps
    (Request "application/json" (Ok (VDict Sample.one_record)) []) =
  ret (Response
         (Json.dumps
            (pages_envelope (VStr "r1")
               (VList (map VStr (paginate "hello world")))))
         "application/json" 200).
Proof.
  apply (pipeline_raw_text_pages Sample.fitz_open Sample.requests_get
           Base64.b64decode Json.dumps "application/json" []
           Sample.one_record
           [("recordId", VStr "r1");
            ("data", VDict [("content", VStr "hello world")])]
           [("content", VStr "hello world")] [] "hello world"
           (Exn ValueError "Incorrect padding"));
    try reflexivity.
  discriminate.
Defined.

Lemma pipeline_base64_pdf_witness :
  value
    (split_pdf Sample.fitz_open Sample.requests_get Base64.b64decode
       Json.dumps
       (Request "application/json"
          (Ok (VDict [("values",
                       VList [VDict [("data",
                                      VDict [("content", VStr "aGVsbG8=")])]])]))
          [])) =
  Response
    (Json.dumps
       (error_envelope (VStr "0") "PDF data too small to be valid"))
    "application/json" 200.
Proof.
  destruct (pipeline_base64_pdf Sample.fitz_open Sample.requests_get
              Base64.b64decode Json.dumps "application/json" []
              [("values",
                VList [VDict [("data",
                               VDict [("content", VStr "aGVsbG8=")])]])]
              [("data", VDict [("content", VStr "aGVsbG8=")])]
              [("content", VStr "aGVsbG8=")] [] "aGVsbG8="
              [Byte.x68; Byte.x65; Byte.x6c; Byte.x6c; Byte.x6f])
    as (_ & _ & Herror);
    [reflexivity | reflexivity | reflexivity | reflexivity | discriminate
    | reflexivity | reflexivity | ].
  apply Herror. reflexivity.
Defined.
